(** * Training-progress tracker and epoch driver (train/utils.py)

    A shallow embedding of [TrainingProgress] and [train_epoch].

    Modelling conventions.
    - Python numbers (the losses, accuracies and their running sums) are
      exact rationals [Q]; [+=] is [Qplus], [/=] is true division, which
      raises [ZeroDivisionError] on a zero divisor, and [>] is the strict
      order of [Q].  Rounding of binary floating point is not modelled.
    - Exceptions are values of [exn]; a computation returns a [result]
      together with the state reached when the exception left the call,
      because attribute assignments made before the raise stay visible.
    - [TrainingProgress] declares its four accumulators as class attributes.
      An instance holds them in its own dictionary only after the first
      assignment; until then a read falls through to the class.
    - The model handle, the batches and the processor are external: the
      model is a training flag and an opaque parameter state, batches are
      opaque, and the processor is a function of the batch and of the
      [train] keyword argument (absent when the call does not pass it).
    - [print] and the [tqdm] progress bar only write to the console and
      are left out. *)

From Stdlib Require Import ZArith QArith List String Decimal DecimalString Lia.
From stdpp Require Import base option gmap.
Import ListNotations.

Local Open Scope Q_scope.
Local Open Scope string_scope.
Local Open Scope list_scope.

(** ** Exceptions and the state-and-exception monad *)

Inductive exn : Set :=
| AssertionError
| TypeError
| ZeroDivisionError
| AttributeError.

Inductive result (A : Type) : Type :=
| Ok (a : A)
| Raise (e : exn).
Arguments Ok {A} a.
Arguments Raise {A} e.

Definition M (S A : Type) : Type := S -> result A * S.

Definition ret {S A} (a : A) : M S A := fun s => (Ok a, s).

Definition raise {S A} (e : exn) : M S A := fun s => (Raise e, s).

Definition bind {S A B} (c : M S A) (k : A -> M S B) : M S B :=
  fun s =>
    match c s with
    | (Ok a, s') => k a s'
    | (Raise e, s') => (Raise e, s')
    end.

Definition gets {S A} (f : S -> A) : M S A := fun s => (Ok (f s), s).

Definition modify {S} (f : S -> S) : M S unit := fun s => (Ok tt, f s).

Definition lift {S A} (r : result A) : M S A := fun s => (r, s).

Notation "x <- c ;; k" := (bind c (fun x => k))
  (at level 100, c at next level, right associativity).
Notation "c ;;; k" := (bind c (fun _ => k))
  (at level 100, right associativity).

(** ** Python arithmetic on the tracked numbers *)

(** [x + y] where [y] may be [None]: a number plus [None] is a [TypeError]. *)
Definition py_add (x : Q) (y : option Q) : result Q :=
  match y with
  | Some v => Ok (x + v)
  | None => Raise TypeError
  end.

(** [x / n] for an integer [n]: true division, [ZeroDivisionError] on 0. *)
Definition py_truediv (x : Q) (n : Z) : result Q :=
  if (n =? 0)%Z then Raise ZeroDivisionError else Ok (x / inject_Z n).

(** [x > y]. *)
Definition py_gt (x y : Q) : bool := negb (Qle_bool x y).

(** [int(x)]: truncation towards zero. *)
Definition py_int (x : Q) : Z := Z.quot (Qnum x) (Z.pos (Qden x)).

(** ["%d" % z] for an integer [z]. *)
Definition fmt_d (z : Z) : string := NilZero.string_of_int (Z.to_int z).

(** ** The tracker object *)

Inductive attr : Set :=
| average_training_loss
| average_validation_loss
| average_training_acc
| average_validation_acc.

(** The class body: [average_training_loss, average_validation_loss = 0, 0]
    and [average_training_acc, average_validation_acc = 0, 0]. *)
Record ClassAttrs : Type := {
  cls_average_training_loss : Q;
  cls_average_validation_loss : Q;
  cls_average_training_acc : Q;
  cls_average_validation_acc : Q
}.

Definition TrainingProgress_class : ClassAttrs :=
  {| cls_average_training_loss := 0;
     cls_average_validation_loss := 0;
     cls_average_training_acc := 0;
     cls_average_validation_acc := 0 |}.

Definition class_attr (c : ClassAttrs) (a : attr) : Q :=
  match a with
  | average_training_loss => cls_average_training_loss c
  | average_validation_loss => cls_average_validation_loss c
  | average_training_acc => cls_average_training_acc c
  | average_validation_acc => cls_average_validation_acc c
  end.

(** The dictionary of one instance.  The three attributes set by
    [__init__] are always present; an accumulator is present ([Some])
    once it has been assigned through the instance. *)
Record TrainingProgress : Type := {
  epoch : Z;
  track_accuracy : bool;
  best_validation_loss : Q;
  own_average_training_loss : option Q;
  own_average_validation_loss : option Q;
  own_average_training_acc : option Q;
  own_average_validation_acc : option Q
}.

Definition own (t : TrainingProgress) (a : attr) : option Q :=
  match a with
  | average_training_loss => own_average_training_loss t
  | average_validation_loss => own_average_validation_loss t
  | average_training_acc => own_average_training_acc t
  | average_validation_acc => own_average_validation_acc t
  end.

Definition write_attr (t : TrainingProgress) (a : attr) (v : Q) : TrainingProgress :=
  match a with
  | average_training_loss =>
      {| epoch := epoch t; track_accuracy := track_accuracy t;
         best_validation_loss := best_validation_loss t;
         own_average_training_loss := Some v;
         own_average_validation_loss := own_average_validation_loss t;
         own_average_training_acc := own_average_training_acc t;
         own_average_validation_acc := own_average_validation_acc t |}
  | average_validation_loss =>
      {| epoch := epoch t; track_accuracy := track_accuracy t;
         best_validation_loss := best_validation_loss t;
         own_average_training_loss := own_average_training_loss t;
         own_average_validation_loss := Some v;
         own_average_training_acc := own_average_training_acc t;
         own_average_validation_acc := own_average_validation_acc t |}
  | average_training_acc =>
      {| epoch := epoch t; track_accuracy := track_accuracy t;
         best_validation_loss := best_validation_loss t;
         own_average_training_loss := own_average_training_loss t;
         own_average_validation_loss := own_average_validation_loss t;
         own_average_training_acc := Some v;
         own_average_validation_acc := own_average_validation_acc t |}
  | average_validation_acc =>
      {| epoch := epoch t; track_accuracy := track_accuracy t;
         best_validation_loss := best_validation_loss t;
         own_average_training_loss := own_average_training_loss t;
         own_average_validation_loss := own_average_validation_loss t;
         own_average_training_acc := own_average_training_acc t;
         own_average_validation_acc := Some v |}
  end.

Definition with_epoch (t : TrainingProgress) (e : Z) : TrainingProgress :=
  {| epoch := e; track_accuracy := track_accuracy t;
     best_validation_loss := best_validation_loss t;
     own_average_training_loss := own_average_training_loss t;
     own_average_validation_loss := own_average_validation_loss t;
     own_average_training_acc := own_average_training_acc t;
     own_average_validation_acc := own_average_validation_acc t |}.

Definition with_best_validation_loss (t : TrainingProgress) (v : Q)
  : TrainingProgress :=
  {| epoch := epoch t; track_accuracy := track_accuracy t;
     best_validation_loss := v;
     own_average_training_loss := own_average_training_loss t;
     own_average_validation_loss := own_average_validation_loss t;
     own_average_training_acc := own_average_training_acc t;
     own_average_validation_acc := own_average_validation_acc t |}.

(** [TrainingProgress(epoch, track_accuracy, best_validation_loss)]:
    [__init__] assigns its three arguments and nothing else.  The
    defaults of the keyword arguments are 0, True and 1e6. *)
Definition __init__ (epoch : Z) (track_accuracy : bool) (best_validation_loss : Q)
  : TrainingProgress :=
  {| epoch := epoch;
     track_accuracy := track_accuracy;
     best_validation_loss := best_validation_loss;
     own_average_training_loss := None;
     own_average_validation_loss := None;
     own_average_training_acc := None;
     own_average_validation_acc := None |}.

Definition default_best_validation_loss : Q := 1000000.

Section Tracker.

(** The parameter state of a model and the batches are opaque. *)
Context {StateDict Batch : Type}.

(** The model handle: its mode and what [state_dict()] returns. *)
Record Model : Type := {
  training : bool;
  state_dict : StateDict
}.

(** What a method call on one tracker can see and change: the class
    attributes, the instance and the files in the working directory
    (oldest first). *)
Record Frame : Type := {
  klass : ClassAttrs;
  self : TrainingProgress;
  disk : list (string * StateDict)
}.

(** [self.a] read: the instance dictionary first, then the class. *)
Definition read_attr (c : ClassAttrs) (t : TrainingProgress) (a : attr) : Q :=
  match own t a with
  | Some v => v
  | None => class_attr c a
  end.

Definition getattr (a : attr) : M Frame Q :=
  gets (fun f => read_attr (klass f) (self f) a).

Definition with_self (f : Frame) (t : TrainingProgress) : Frame :=
  {| klass := klass f; self := t; disk := disk f |}.

(** [self.a = v]: always writes the instance dictionary. *)
Definition setattr (a : attr) (v : Q) : M Frame unit :=
  modify (fun f => with_self f (write_attr (self f) a v)).

Definition get_track_accuracy : M Frame bool :=
  gets (fun f => track_accuracy (self f)).

Definition get_epoch : M Frame Z :=
  gets (fun f => epoch (self f)).

Definition set_epoch (e : Z) : M Frame unit :=
  modify (fun f => with_self f (with_epoch (self f) e)).

Definition get_best_validation_loss : M Frame Q :=
  gets (fun f => best_validation_loss (self f)).

Definition set_best_validation_loss (v : Q) : M Frame unit :=
  modify (fun f => with_self f (with_best_validation_loss (self f) v)).

(** [torch.save(obj, name)]: one more file in the working directory. *)
Definition torch_save (obj : StateDict) (name : string) : M Frame unit :=
  modify (fun f =>
    {| klass := klass f; self := self f; disk := disk f ++ [(name, obj)] |}).

(** [self.a += v] *)
Definition iadd (a : attr) (v : option Q) : M Frame unit :=
  x <- getattr a ;;
  y <- lift (py_add x v) ;;
  setattr a y.

(** [self.a /= n] *)
Definition idiv (a : attr) (n : Z) : M Frame unit :=
  x <- getattr a ;;
  y <- lift (py_truediv x n) ;;
  setattr a y.

(** ["epoch-%d-%d.pt" % (e, k)] *)
Definition checkpoint_name (e k : Z) : string :=
  "epoch-" ++ fmt_d e ++ "-" ++ fmt_d k ++ ".pt".

Definition update_progress (train : bool) (epoch : Z) (loss : Q)
    (acc : option Q) : M Frame unit :=
  set_epoch epoch ;;;
  if train then
    iadd average_training_loss (Some loss) ;;;
    ta <- get_track_accuracy ;;
    if ta then iadd average_training_acc acc else ret tt
  else
    iadd average_validation_loss (Some loss) ;;;
    ta <- get_track_accuracy ;;
    if ta then iadd average_validation_acc acc else ret tt.

Definition start_epoch (train : bool) : M Frame unit :=
  if train then
    setattr average_training_acc 0 ;;;
    setattr average_training_loss 0
  else
    setattr average_validation_loss 0 ;;;
    setattr average_validation_acc 0.

Definition finish_epoch (train : bool) (epoch : Z) (model : Model)
    (num_batches : Z) : M Frame unit :=
  set_epoch epoch ;;;
  if train then
    idiv average_training_acc num_batches ;;;
    idiv average_training_loss num_batches
  else
    idiv average_validation_acc num_batches ;;;
    idiv average_validation_loss num_batches ;;;
    best <- get_best_validation_loss ;;
    avl <- getattr average_validation_loss ;;
    if py_gt best avl then
      set_best_validation_loss avl ;;;
      e <- get_epoch ;;
      ava <- getattr average_validation_acc ;;
      torch_save (state_dict model) (checkpoint_name e (py_int ava))
    else ret tt.

(** ** What a caller observes and the calls it can make *)

(** The value a read of [progress.a] gives. *)
Definition value (f : Frame) (a : attr) : Q := read_attr (klass f) (self f) a.

Definition loss_attr (train : bool) : attr :=
  if train then average_training_loss else average_validation_loss.

Definition acc_attr (train : bool) : attr :=
  if train then average_training_acc else average_validation_acc.

(** One call on the tracker, as data. *)
Inductive call : Type :=
| StartPhase (train : bool)
| RecordBatch (train : bool) (epoch : Z) (loss : Q) (acc : option Q)
| FinishPhase (train : bool) (epoch : Z) (model : Model) (num_batches : Z).

Definition exec (c : call) : M Frame unit :=
  match c with
  | StartPhase train => start_epoch train
  | RecordBatch train epoch loss acc => update_progress train epoch loss acc
  | FinishPhase train epoch model n => finish_epoch train epoch model n
  end.

(** A caller that makes every call of [cs] in turn, each on the state the
    previous one left, whether or not that one raised. *)
Fixpoint exec_all (cs : list call) (f : Frame) : Frame :=
  match cs with
  | [] => f
  | c :: cs' => exec_all cs' (snd (exec c f))
  end.

(** One phase as the driver runs it: start, one record per batch, finish
    with the number of batches. *)
Fixpoint record_all (train : bool) (epoch : Z) (bs : list (Q * option Q))
  : M Frame unit :=
  match bs with
  | [] => ret tt
  | b :: bs' =>
      update_progress train epoch (fst b) (snd b) ;;;
      record_all train epoch bs'
  end.

Definition phase (train : bool) (epoch : Z) (model : Model)
    (bs : list (Q * option Q)) : M Frame unit :=
  start_epoch train ;;;
  record_all train epoch bs ;;;
  finish_epoch train epoch model (Z.of_nat (length bs)).

(** The sum of a list of numbers. *)
Fixpoint Qsum (l : list Q) : Q :=
  match l with
  | [] => 0
  | x :: r => x + Qsum r
  end.


(** ** The heap: several tracker instances of the one class *)

(** Object identity. *)
Definition loc : Type := nat.

(** The processor returns one tensor, or a pair of tensors; each is kept
    as the scalar that [.data[0]] extracts. *)
Inductive PyRet : Type :=
| Tensor (v : Q)
| Pair (loss acc : Q).

(** The processor, as a function of the batch and of the [train] keyword
    ([None] when the call passes the batch alone). *)
Definition Processor : Type := Batch -> option bool -> result PyRet.

Record World : Type := {
  class_attrs : ClassAttrs;
  objects : gmap loc TrainingProgress;
  files : list (string * StateDict);
  the_model : Model;
  calls : list (Batch * option bool)
}.

(** A method call [l.m(...)]: [m] runs on the class, the instance at [l]
    and the working directory, and what it leaves is written back.  A
    Python reference always names a live object; a location outside the
    heap is answered with [AttributeError]. *)
Definition invoke {A} (l : loc) (m : M Frame A) : M World A :=
  fun w =>
    match objects w !! l with
    | Some t =>
        let out := m {| klass := class_attrs w; self := t; disk := files w |} in
        (fst out,
         {| class_attrs := klass (snd out);
            objects := <[l := self (snd out)]> (objects w);
            files := disk (snd out);
            the_model := the_model w;
            calls := calls w |})
    | None => (Raise AttributeError, w)
    end.

(** The calls [cs] made in turn on the instance at [l]. *)
Fixpoint invoke_all (l : loc) (cs : list call) (w : World) : World :=
  match cs with
  | [] => w
  | c :: cs' => invoke_all l cs' (snd (invoke l (exec c) w))
  end.

(** What a read of [l.a] gives in [w]. *)
Definition observed (w : World) (l : loc) (a : attr) : option Q :=
  match objects w !! l with
  | Some t => Some (read_attr (class_attrs w) t a)
  | None => None
  end.

(** ** The epoch driver *)

(** [model.train()] and [model.eval()] *)
Definition set_training (b : bool) : M World unit :=
  modify (fun w =>
    {| class_attrs := class_attrs w; objects := objects w; files := files w;
       the_model := {| training := b; state_dict := state_dict (the_model w) |};
       calls := calls w |}).

(** [processor(batch, train=b)], or [processor(batch)] for [None]; the
    call is appended to the log of calls. *)
Definition call_processor (processor : Processor) (batch : Batch)
    (train : option bool) : M World PyRet :=
  modify (fun w =>
    {| class_attrs := class_attrs w; objects := objects w; files := files w;
       the_model := the_model w;
       calls := calls w ++ [(batch, train)] |}) ;;;
  lift (processor batch train).

(** [loss, acc = r] followed by [.data[0]] on both. *)
Definition unpack2 (r : PyRet) : result (Q * Q) :=
  match r with
  | Pair l a => Ok (l, a)
  | Tensor _ => Raise TypeError
  end.

(** [r.data[0]] on the whole return value. *)
Definition data0 (r : PyRet) : result Q :=
  match r with
  | Tensor v => Ok v
  | Pair _ _ => Raise AttributeError
  end.

(** [for batch in tqdm(train_iterator): ...] *)
Fixpoint train_loop (epoch : Z) (processor : Processor) (progress : loc)
    (train_iterator : list Batch) : M World unit :=
  match train_iterator with
  | [] => ret tt
  | batch :: rest =>
      ta <- invoke progress get_track_accuracy ;;
      (if ta : bool then
         r <- call_processor processor batch (Some true) ;;
         p <- lift (unpack2 r) ;;
         invoke progress (update_progress true epoch (fst p) (Some (snd p)))
       else
         r <- call_processor processor batch None ;;
         training_loss <- lift (data0 r) ;;
         invoke progress (update_progress true epoch training_loss None)) ;;;
      train_loop epoch processor progress rest
  end.

(** [for batch in tqdm(valid_iterator): ...] *)
Fixpoint valid_loop (epoch : Z) (processor : Processor) (progress : loc)
    (valid_iterator : list Batch) : M World unit :=
  match valid_iterator with
  | [] => ret tt
  | batch :: rest =>
      ta <- invoke progress get_track_accuracy ;;
      (if ta : bool then
         r <- call_processor processor batch (Some false) ;;
         p <- lift (unpack2 r) ;;
         invoke progress (update_progress false epoch (fst p) (Some (snd p)))
       else
         r <- call_processor processor batch None ;;
         valid_loss <- lift (data0 r) ;;
         invoke progress (update_progress false epoch valid_loss None)) ;;;
      valid_loop epoch processor progress rest
  end.

(** [train_epoch(epoch, model, train_iterator, valid_iterator, processor,
    progress)].  The [model] argument is the model object of the world;
    [progress] and [valid_iterator] may be [None]. *)
Definition train_epoch (epoch : Z) (train_iterator : list Batch)
    (valid_iterator : option (list Batch)) (processor : Processor)
    (progress : option loc) : M World unit :=
  match progress with
  | None => raise AssertionError
  | Some progress =>
      set_training true ;;;
      invoke progress (start_epoch true) ;;;
      train_loop epoch processor progress train_iterator ;;;
      model <- gets the_model ;;
      invoke progress
        (finish_epoch true epoch model (Z.of_nat (length train_iterator))) ;;;
      match valid_iterator with
      | None => ret tt
      | Some valid_iterator =>
          set_training false ;;;
          invoke progress (start_epoch false) ;;;
          valid_loop epoch processor progress valid_iterator ;;;
          model <- gets the_model ;;
          invoke progress
            (finish_epoch false epoch model
               (Z.of_nat (length valid_iterator)))
      end
  end.

(** ** Vocabulary of the statements *)

(** [k] is [x] with its fractional part dropped. *)
Definition truncation (x : Q) (k : Z) : Prop :=
  (0 <= x -> inject_Z k <= x /\ x < inject_Z k + 1)
  /\ (x <= 0 -> inject_Z k - 1 < x /\ x <= inject_Z k).

(** [k] is an integer nearest to [x]. *)
Definition nearest (x : Q) (k : Z) : Prop :=
  inject_Z k - (1 # 2) <= x /\ x <= inject_Z k + (1 # 2).

(** The accuracy side of a tracker that does not track accuracy. *)
Definition untracked (f : Frame) : Prop :=
  track_accuracy (self f) = false
  /\ value f average_training_acc == 0
  /\ value f average_validation_acc == 0.

(** A processor that answers every call with a loss and an accuracy. *)
Definition returns_pairs (processor : Processor) : Prop :=
  forall (batch : Batch) (train : option bool),
    exists loss acc : Q, processor batch train = Ok (Pair loss acc).

(** The phase a call is made for. *)
Definition call_train (c : call) : bool :=
  match c with
  | StartPhase train => train
  | RecordBatch train _ _ _ => train
  | FinishPhase train _ _ _ => train
  end.

(** How many of the calls are [finish_epoch] for the validation phase. *)
Fixpoint validation_finishes (cs : list call) : nat :=
  match cs with
  | [] => O
  | FinishPhase false _ _ _ :: cs' => S (validation_finishes cs')
  | _ :: cs' => validation_finishes cs'
  end.

(** The epoch passed to the last call that takes one, [e0] if none does. *)
Fixpoint last_epoch (cs : list call) (e0 : Z) : Z :=
  match cs with
  | [] => e0
  | StartPhase _ :: cs' => last_epoch cs' e0
  | RecordBatch _ e _ _ :: cs' => last_epoch cs' e
  | FinishPhase _ e _ _ :: cs' => last_epoch cs' e
  end.

(** The [train] keyword the driver passes with a batch: the flag itself
    on the path that tracks accuracy, none on the other path. *)
Definition keyword (ta train : bool) : option bool :=
  if ta then Some train else None.

(** [processor] answers the driver's call for batch [b] in the shape the
    driver expects: a pair of tensors when accuracy is tracked, a single
    tensor otherwise. *)
Definition answers (processor : Processor) (ta train : bool)
    (loss acc : Batch -> Q) (b : Batch) : Prop :=
  processor b (keyword ta train)
  = Ok (if ta then Pair (loss b) (acc b) else Tensor (loss b)).

(** What the driver records for the batches [bs]. *)
Definition records (ta : bool) (loss acc : Batch -> Q) (bs : list Batch)
  : list (Q * option Q) :=
  map (fun b => (loss b, if ta then Some (acc b) else None)) bs.

(** The processor calls the driver logs for the batches [bs]. *)
Definition logged (ta train : bool) (bs : list Batch)
  : list (Batch * option bool) :=
  map (fun b => (b, keyword ta train)) bs.

(** The frame a method call on the instance [t] of the world runs on. *)
Definition frame_of (w : World) (t : TrainingProgress) : Frame :=
  {| klass := class_attrs w; self := t; disk := files w |}.

(** The world [w] with the frame [f] written back for the instance at
    [l], the model [mo] and the call log [cs]. *)
Definition commit (w : World) (l : loc) (f : Frame) (mo : Model)
    (cs : list (Batch * option bool)) : World :=
  {| class_attrs := klass f;
     objects := <[l := self f]> (objects w);
     files := disk f;
     the_model := mo;
     calls := cs |}.

(** The model handle after [model.train()] or [model.eval()]. *)
Definition in_mode (mo : Model) (b : bool) : Model :=
  {| training := b; state_dict := state_dict mo |}.

(** The calls one phase makes on the tracker. *)
Definition phase_calls (train : bool) (e : Z) (model : Model)
    (recs : list (Q * option Q)) : list call :=
  StartPhase train
  :: map (fun r => RecordBatch train e (fst r) (snd r)) recs
  ++ [FinishPhase train e model (Z.of_nat (length recs))].




(** ** Equations of the object model *)

Lemma read_write_eq c t a v : read_attr c (write_attr t a v) a = v.
Proof. destruct a; reflexivity. Qed.

Lemma read_write_ne c t a b v :
  a <> b -> read_attr c (write_attr t a v) b = read_attr c t b.
Proof. destruct a, b; intros H; try reflexivity; congruence. Qed.

Lemma read_with_best c t v a :
  read_attr c (with_best_validation_loss t v) a = read_attr c t a.
Proof. destruct a; reflexivity. Qed.

(** ** Equations of the two in-place operators *)

Lemma iadd_some a v f :
  iadd a (Some v) f = (Ok tt, with_self f (write_attr (self f) a (value f a + v))).
Proof. reflexivity. Qed.

Lemma iadd_none a f : iadd a None f = (Raise TypeError, f).
Proof. reflexivity. Qed.

Lemma idiv_nonzero a n f :
  n <> 0%Z ->
  idiv a n f = (Ok tt, with_self f (write_attr (self f) a (value f a / inject_Z n))).
Proof.
  intros Hn. unfold idiv, bind, getattr, gets, lift, py_truediv.
  destruct (Z.eqb_spec n 0) as [E | _]; [contradiction | reflexivity].
Qed.

Lemma idiv_zero a f : idiv a 0 f = (Raise ZeroDivisionError, f).
Proof. reflexivity. Qed.

Lemma py_gt_spec x y : py_gt x y = true <-> y < x.
Proof.
  unfold py_gt. rewrite negb_true_iff.
  split.
  - intros H. apply Qnot_le_lt. intros Hle.
    apply Qle_bool_iff in Hle. congruence.
  - intros H. destruct (Qle_bool x y) eqn:E; [| reflexivity].
    apply Qle_bool_iff in E. exfalso. exact (Qlt_not_le _ _ H E).
Qed.

Lemma bind_ok {S A B} (c : M S A) (k : A -> M S B) s a s' :
  c s = (Ok a, s') -> bind c k s = k a s'.
Proof. intros H. unfold bind. rewrite H. reflexivity. Qed.

Ltac open_frame f :=
  let c := fresh "c" in
  let t := fresh "t" in
  let d := fresh "d" in
  destruct f as [c t d]; destruct t.

(** ** The methods, equation by equation *)

Lemma finish_epoch_zero train e model f :
  finish_epoch train e model 0 f
  = (Raise ZeroDivisionError, with_self f (with_epoch (self f) e)).
Proof. destruct train; reflexivity. Qed.

Lemma finish_epoch_train e model n f :
  n <> 0%Z ->
  let f1 := with_self f (with_epoch (self f) e) in
  let f2 := with_self f1 (write_attr (self f1) average_training_acc
                            (value f1 average_training_acc / inject_Z n)) in
  finish_epoch true e model n f
  = (Ok tt, with_self f2 (write_attr (self f2) average_training_loss
                            (value f2 average_training_loss / inject_Z n))).
Proof.
  intros Hn f1 f2. unfold finish_epoch.
  rewrite (bind_ok _ _ f tt f1) by reflexivity.
  rewrite (bind_ok _ _ f1 tt f2) by (apply idiv_nonzero; exact Hn).
  apply idiv_nonzero; exact Hn.
Qed.

Lemma finish_epoch_valid e model n f :
  n <> 0%Z ->
  let f1 := with_self f (with_epoch (self f) e) in
  let f2 := with_self f1 (write_attr (self f1) average_validation_acc
                            (value f1 average_validation_acc / inject_Z n)) in
  let f3 := with_self f2 (write_attr (self f2) average_validation_loss
                            (value f2 average_validation_loss / inject_Z n)) in
  finish_epoch false e model n f
  = if py_gt (best_validation_loss (self f3)) (value f3 average_validation_loss)
    then (Ok tt,
          {| klass := klass f3;
             self := with_best_validation_loss (self f3)
                       (value f3 average_validation_loss);
             disk := disk f3 ++
                     [(checkpoint_name e (py_int (value f3 average_validation_acc)),
                       state_dict model)] |})
    else (Ok tt, f3).
Proof.
  intros Hn f1 f2 f3. unfold finish_epoch.
  rewrite (bind_ok _ _ f tt f1) by reflexivity.
  rewrite (bind_ok _ _ f1 tt f2) by (apply idiv_nonzero; exact Hn).
  rewrite (bind_ok _ _ f2 tt f3) by (apply idiv_nonzero; exact Hn).
  rewrite (bind_ok _ _ f3 (best_validation_loss (self f3)) f3) by reflexivity.
  rewrite (bind_ok _ _ f3 (value f3 average_validation_loss) f3) by reflexivity.
  destruct (py_gt _ _); [| reflexivity].
  open_frame f. reflexivity.
Qed.

(** The mean validation loss and accuracy that [finish_epoch] computes. *)
Lemma finish_epoch_valid_values e n f :
  let f1 := with_self f (with_epoch (self f) e) in
  let f2 := with_self f1 (write_attr (self f1) average_validation_acc
                            (value f1 average_validation_acc / inject_Z n)) in
  let f3 := with_self f2 (write_attr (self f2) average_validation_loss
                            (value f2 average_validation_loss / inject_Z n)) in
  value f3 average_validation_loss = value f average_validation_loss / inject_Z n
  /\ value f3 average_validation_acc = value f average_validation_acc / inject_Z n
  /\ value f3 average_training_loss = value f average_training_loss
  /\ value f3 average_training_acc = value f average_training_acc
  /\ best_validation_loss (self f3) = best_validation_loss (self f)
  /\ track_accuracy (self f3) = track_accuracy (self f)
  /\ epoch (self f3) = e
  /\ disk f3 = disk f
  /\ klass f3 = klass f.
Proof. open_frame f. cbn. repeat split; reflexivity. Qed.

(** The validation branch in one statement: [f3] is the frame after the
    two divisions. *)
Lemma finish_epoch_valid_spec e model n f :
  n <> 0%Z ->
  exists f3 : Frame,
    (value f3 average_validation_loss = value f average_validation_loss / inject_Z n
     /\ value f3 average_validation_acc = value f average_validation_acc / inject_Z n
     /\ value f3 average_training_loss = value f average_training_loss
     /\ value f3 average_training_acc = value f average_training_acc
     /\ best_validation_loss (self f3) = best_validation_loss (self f)
     /\ track_accuracy (self f3) = track_accuracy (self f)
     /\ epoch (self f3) = e
     /\ disk f3 = disk f
     /\ klass f3 = klass f)
    /\ finish_epoch false e model n f
       = if py_gt (best_validation_loss (self f3))
                  (value f3 average_validation_loss)
         then (Ok tt,
               {| klass := klass f3;
                  self := with_best_validation_loss (self f3)
                            (value f3 average_validation_loss);
                  disk := disk f3 ++
                          [(checkpoint_name e
                              (py_int (value f3 average_validation_acc)),
                            state_dict model)] |})
         else (Ok tt, f3).
Proof.
  intros Hn. eexists. split.
  - exact (finish_epoch_valid_values e n f).
  - exact (finish_epoch_valid e model n f Hn).
Qed.

Lemma value_with_best c t d d' v a :
  value {| klass := c; self := with_best_validation_loss t v; disk := d' |} a
  = value {| klass := c; self := t; disk := d |} a.
Proof. unfold value. cbn [klass self]. apply read_with_best. Qed.

Lemma value_eta (f : Frame) a :
  value {| klass := klass f; self := self f; disk := disk f |} a = value f a.
Proof. reflexivity. Qed.


(** ** The checkpoint decision *)


(** ** The name of the checkpoint *)

Lemma py_int_truncation (x : Q) : truncation x (py_int x).
Proof.
  destruct x as [p q]. unfold truncation, py_int. cbn [Qnum Qden].
  pose proof (Z.quot_rem' p (Z.pos q)) as E.
  unfold Qle, Qlt, inject_Z, Qplus, Qminus, Qopp. cbn.
  split; intros H.
  - assert (Hp : (0 <= p)%Z) by lia.
    pose proof (Z.rem_bound_pos_pos p (Z.pos q) ltac:(lia) Hp). nia.
  - assert (Hp : (p <= 0)%Z) by lia.
    pose proof (Z.rem_bound_pos_neg p (Z.pos q) ltac:(lia) Hp). nia.
Qed.

(** C3, as the code has it.  When [finish_epoch] on the validation phase
    writes a checkpoint, the file is named [epoch-<epoch>-<k>.pt], where
    [<epoch>] is the epoch passed to the call and [k] is the mean
    validation accuracy truncated towards zero ([int], not round to
    nearest), both printed in decimal. *)
Theorem finish_epoch_checkpoint_name_truncates
    (f : Frame) (e : Z) (model : Model) (num_batches : Z) :
  num_batches <> 0%Z ->
  value f average_validation_loss / inject_Z num_batches
    < best_validation_loss (self f) ->
  exists k : Z,
    truncation (value f average_validation_acc / inject_Z num_batches) k
    /\ disk (snd (finish_epoch false e model num_batches f))
       = disk f ++ [(("epoch-" ++ fmt_d e ++ "-" ++ fmt_d k ++ ".pt")%string,
                     state_dict model)].
Proof.
  intros Hn Hlt.
  destruct (finish_epoch_valid_spec e model num_batches f Hn)
    as (f3 & (Hl & Ha & _ & _ & Hb & _ & _ & Hd & _) & ->).
  rewrite Hl, Hb, Ha.
  apply py_gt_spec in Hlt. rewrite Hlt. cbn [snd disk]. rewrite Hd.
  exists (py_int (value f average_validation_acc / inject_Z num_batches)).
  split; [apply py_int_truncation | reflexivity].
Qed.

(** ** The training phase leaves the validation side alone *)

(** C9. [finish_epoch] for the training phase never changes the stored
    best validation loss, never writes a file, and leaves both validation
    accumulators as they were, whatever the number of batches. *)
Theorem finish_epoch_training_frame
    (f : Frame) (e : Z) (model : Model) (num_batches : Z) :
  let out := finish_epoch true e model num_batches f in
  best_validation_loss (self (snd out)) = best_validation_loss (self f)
  /\ disk (snd out) = disk f
  /\ value (snd out) average_validation_loss = value f average_validation_loss
  /\ value (snd out) average_validation_acc = value f average_validation_acc.
Proof.
  intros out. subst out.
  destruct (Z.eq_dec num_batches 0%Z) as [-> | Hn].
  - rewrite finish_epoch_zero. open_frame f. split_and!; reflexivity.
  - rewrite finish_epoch_train by exact Hn. open_frame f.
    split_and!; reflexivity.
Qed.

(** ** Failures *)

(** C6. [start_epoch] followed at once by [finish_epoch] with zero
    batches raises [ZeroDivisionError], for the training and for the
    validation phase; so does [finish_epoch] with zero batches on any
    state. *)
Theorem finish_epoch_zero_batches_raises
    (f : Frame) (train : bool) (e : Z) (model : Model) :
  fst ((start_epoch train ;;; finish_epoch train e model 0) f)
  = Raise ZeroDivisionError
  /\ forall g : Frame,
       fst (finish_epoch train e model 0 g) = Raise ZeroDivisionError.
Proof.
  split.
  - destruct train; reflexivity.
  - intros g. rewrite finish_epoch_zero. reflexivity.
Qed.

(** C8. With accuracy tracking enabled, [update_progress] called without
    an accuracy raises [TypeError]: no default is put in its place and
    both accuracy accumulators keep their values.  The loss of the call
    has been added to the loss accumulator of the phase by then. *)
Theorem update_progress_missing_accuracy_raises
    (f : Frame) (train : bool) (e : Z) (loss : Q) :
  track_accuracy (self f) = true ->
  let out := update_progress train e loss None f in
  fst out = Raise TypeError
  /\ value (snd out) average_training_acc = value f average_training_acc
  /\ value (snd out) average_validation_acc = value f average_validation_acc
  /\ value (snd out) (loss_attr train) = value f (loss_attr train) + loss.
Proof.
  intros Hta out. subst out. open_frame f. cbn in Hta. subst.
  destruct train; split_and!; reflexivity.
Qed.

(** ** Means *)

Lemma start_epoch_effect train f :
  exists f0 : Frame,
    start_epoch train f = (Ok tt, f0)
    /\ value f0 (loss_attr train) = 0
    /\ value f0 (acc_attr train) = 0
    /\ track_accuracy (self f0) = track_accuracy (self f).
Proof.
  exists (snd (start_epoch train f)).
  open_frame f. destruct train; split_and!; reflexivity.
Qed.

Lemma update_progress_effect train e loss acc f :
  (track_accuracy (self f) = true -> acc <> None) ->
  exists f' : Frame,
    update_progress train e loss acc f = (Ok tt, f')
    /\ value f' (loss_attr train) = value f (loss_attr train) + loss
    /\ value f' (acc_attr train)
       = (if track_accuracy (self f)
          then value f (acc_attr train) + default 0 acc
          else value f (acc_attr train))
    /\ track_accuracy (self f') = track_accuracy (self f).
Proof.
  intros Hacc. open_frame f. cbn in Hacc.
  destruct track_accuracy0, acc as [a |];
    try (exfalso; apply Hacc; reflexivity);
    destruct train; eexists; split_and!; reflexivity.
Qed.

Lemma record_all_effect train e bs :
  forall f : Frame,
    (track_accuracy (self f) = true -> Forall (fun b => snd b <> None) bs) ->
    exists f' : Frame,
      record_all train e bs f = (Ok tt, f')
      /\ value f' (loss_attr train)
         == value f (loss_attr train) + Qsum (map fst bs)
      /\ (track_accuracy (self f) = true ->
          value f' (acc_attr train)
          == value f (acc_attr train)
             + Qsum (map (fun b => default 0 (snd b)) bs))
      /\ track_accuracy (self f') = track_accuracy (self f).
Proof.
  induction bs as [| b bs IH]; intros f Hall.
  - exists f. cbn [record_all map Qsum]. split_and!.
    + reflexivity.
    + ring.
    + intros _. ring.
    + reflexivity.
  - destruct (update_progress_effect train e (fst b) (snd b) f)
      as (f1 & E1 & Hl1 & Ha1 & Ht1).
    { intros Ht. specialize (Hall Ht). inversion Hall; assumption. }
    destruct (IH f1) as (f2 & E2 & Hl2 & Ha2 & Ht2).
    { rewrite Ht1. intros Ht. specialize (Hall Ht). inversion Hall; assumption. }
    exists f2. cbn [record_all map Qsum]. split_and!.
    + rewrite (bind_ok _ _ f tt f1) by exact E1. exact E2.
    + rewrite Hl2, Hl1. ring.
    + intros Ht. rewrite Ha2 by (rewrite Ht1; exact Ht).
      rewrite Ha1, Ht. ring.
    + rewrite Ht2. exact Ht1.
Qed.

Lemma finish_epoch_means train e model n f :
  n <> 0%Z ->
  let out := finish_epoch train e model n f in
  fst out = Ok tt
  /\ value (snd out) (loss_attr train) = value f (loss_attr train) / inject_Z n
  /\ value (snd out) (acc_attr train) = value f (acc_attr train) / inject_Z n.
Proof.
  intros Hn out. subst out. destruct train.
  - rewrite finish_epoch_train by exact Hn. open_frame f.
    split_and!; reflexivity.
  - destruct (finish_epoch_valid_spec e model n f Hn)
      as (f3 & (Hl & Ha & _) & ->).
    cbn [loss_attr acc_attr]. rewrite <- Hl, <- Ha.
    destruct (py_gt _ _); cbn [fst snd]; split_and!; try reflexivity;
      rewrite (value_with_best _ _ (disk f3)); apply value_eta.
Qed.


(** ** Trackers that do not track accuracy *)

Lemma Qdiv_zero_l (x y : Q) : x == 0 -> x / y == 0.
Proof. intros H. rewrite H. unfold Qdiv. apply Qmult_0_l. Qed.

Lemma exec_untracked (c : call) (f : Frame) :
  untracked f -> untracked (snd (exec c f)).
Proof.
  intros (Ht & Htr & Hva). destruct c as [train | train e loss acc | train e model n].
  - open_frame f. cbn in Ht. subst.
    destruct train; split_and!; try reflexivity; assumption.
  - open_frame f. cbn in Ht. subst.
    destruct train; split_and!; try reflexivity; assumption.
  - cbn [exec]. destruct (Z.eq_dec n 0%Z) as [-> | Hn].
    + rewrite finish_epoch_zero. open_frame f. cbn in Ht. subst.
      split_and!; try reflexivity; assumption.
    + destruct train.
      * rewrite finish_epoch_train by exact Hn. open_frame f. cbn in Ht. subst.
        split_and!; [reflexivity | | exact Hva].
        apply Qdiv_zero_l. exact Htr.
      * destruct (finish_epoch_valid_spec e model n f Hn)
          as (f3 & (_ & Ha & _ & Hta & _ & Ht3 & _) & ->).
        assert (U : untracked f3).
        { split_and!.
          - rewrite Ht3. exact Ht.
          - rewrite Hta. exact Htr.
          - rewrite Ha. apply Qdiv_zero_l. exact Hva. }
        destruct (py_gt _ _); cbn [snd]; [| exact U].
        destruct U as (U1 & U2 & U3). split_and!.
        -- exact U1.
        -- rewrite (value_with_best _ _ (disk f3)), value_eta. exact U2.
        -- rewrite (value_with_best _ _ (disk f3)), value_eta. exact U3.
Qed.

Lemma exec_all_untracked (cs : list call) :
  forall f : Frame, untracked f -> untracked (exec_all cs f).
Proof.
  induction cs as [| c cs IH]; intros f U; cbn [exec_all].
  - exact U.
  - apply IH, exec_untracked, U.
Qed.

Lemma update_progress_untracked_ok train e loss acc (f : Frame) :
  track_accuracy (self f) = false ->
  fst (update_progress train e loss acc f) = Ok tt.
Proof.
  intros Ht. open_frame f. cbn in Ht. subst. destruct train; reflexivity.
Qed.

(** C7. A tracker constructed with [track_accuracy=False] keeps both
    accuracy accumulators at zero through any sequence of [start_epoch],
    [update_progress] and [finish_epoch] calls (whether or not a call
    raised, and whatever was passed for the accuracy), and in every state
    so reached [update_progress] without an accuracy returns normally. *)
Theorem untracked_accuracy_stays_zero
    (e : Z) (best : Q) (d : list (string * StateDict)) (cs : list call) :
  let f := exec_all cs {| klass := TrainingProgress_class;
                          self := __init__ e false best;
                          disk := d |} in
  value f average_training_acc == 0
  /\ value f average_validation_acc == 0
  /\ forall (train : bool) (e' : Z) (loss : Q),
       fst (update_progress train e' loss None f) = Ok tt.
Proof.
  intros f.
  assert (U : untracked f).
  { apply exec_all_untracked. split_and!; reflexivity. }
  destruct U as (Ht & Htr & Hva). split_and!.
  - exact Htr.
  - exact Hva.
  - intros train e' loss. apply update_progress_untracked_ok, Ht.
Qed.

(** ** Instances do not leak into each other *)

Lemma exec_klass (c : call) (f : Frame) : klass (snd (exec c f)) = klass f.
Proof.
  destruct c as [train | train e loss acc | train e model n].
  - open_frame f. destruct train; reflexivity.
  - open_frame f. destruct train, track_accuracy0, acc; reflexivity.
  - cbn [exec]. destruct (Z.eq_dec n 0%Z) as [-> | Hn].
    + rewrite finish_epoch_zero. reflexivity.
    + destruct train.
      * rewrite finish_epoch_train by exact Hn. reflexivity.
      * destruct (finish_epoch_valid_spec e model n f Hn)
          as (f3 & (_ & _ & _ & _ & _ & _ & _ & _ & Hk) & ->).
        destruct (py_gt _ _); exact Hk.
Qed.

Lemma invoke_other (l1 l2 : loc) (c : call) (w : World) :
  l1 <> l2 ->
  objects (snd (invoke l1 (exec c) w)) !! l2 = objects w !! l2
  /\ class_attrs (snd (invoke l1 (exec c) w)) = class_attrs w.
Proof.
  intros Hne. unfold invoke.
  destruct (objects w !! l1) as [t |]; cbn [snd objects class_attrs].
  - split.
    + apply lookup_insert_ne. exact Hne.
    + apply (exec_klass c
               {| klass := class_attrs w; self := t; disk := files w |}).
  - split; reflexivity.
Qed.

(** C10. For two distinct tracker instances, any sequence of calls made
    on the first leaves the second instance and the class attributes as
    they were, and so every accumulator read through the second gives
    the value it gave before. *)
Theorem other_instance_unaffected
    (w : World) (l1 l2 : loc) (cs : list call) :
  l1 <> l2 ->
  objects (invoke_all l1 cs w) !! l2 = objects w !! l2
  /\ class_attrs (invoke_all l1 cs w) = class_attrs w
  /\ forall a : attr, observed (invoke_all l1 cs w) l2 a = observed w l2 a.
Proof.
  intros Hne. revert w.
  induction cs as [| c cs IH]; intros w; cbn [invoke_all].
  - split_and!; reflexivity.
  - destruct (IH (snd (invoke l1 (exec c) w))) as (Ho & Hc & Hobs).
    destruct (invoke_other l1 l2 c w Hne) as (Ho1 & Hc1).
    split_and!.
    + rewrite Ho. exact Ho1.
    + rewrite Hc. exact Hc1.
    + intros a. rewrite Hobs. unfold observed. rewrite Ho1, Hc1. reflexivity.
Qed.

(** ** The driver *)

(** C5. [train_epoch] called with [progress=None] raises
    [AssertionError] at once: the world is left as it was, so the mode of
    the model has not been changed and the processor has not been
    called. *)
Theorem train_epoch_without_progress_fails
    (w : World) (e : Z) (train_iterator : list Batch)
    (valid_iterator : option (list Batch)) (processor : Processor) :
  let out := train_epoch e train_iterator valid_iterator processor None w in
  fst out = Raise AssertionError
  /\ snd out = w
  /\ training (the_model (snd out)) = training (the_model w)
  /\ calls (snd out) = calls w.
Proof. split_and!; reflexivity. Qed.

Lemma exec_track_accuracy (c : call) (f : Frame) :
  track_accuracy (self (snd (exec c f))) = track_accuracy (self f).
Proof.
  destruct c as [train | train e loss acc | train e model n].
  - open_frame f. destruct train; reflexivity.
  - open_frame f. destruct train, track_accuracy0, acc; reflexivity.
  - cbn [exec]. destruct (Z.eq_dec n 0%Z) as [-> | Hn].
    + rewrite finish_epoch_zero. reflexivity.
    + destruct train.
      * rewrite finish_epoch_train by exact Hn. open_frame f. reflexivity.
      * destruct (finish_epoch_valid_spec e model n f Hn)
          as (f3 & (_ & _ & _ & _ & _ & Ht & _) & ->).
        destruct (py_gt _ _); exact Ht.
Qed.

(** A call on a live instance: what it returns and what it leaves. *)
Lemma invoke_exec (l : loc) (c : call) (w : World) (t : TrainingProgress) :
  objects w !! l = Some t ->
  let fr := {| klass := class_attrs w; self := t; disk := files w |} in
  exists w' : World,
    invoke l (exec c) w = (fst (exec c fr), w')
    /\ objects w' !! l = Some (self (snd (exec c fr)))
    /\ track_accuracy (self (snd (exec c fr))) = track_accuracy t
    /\ calls w' = calls w
    /\ the_model w' = the_model w.
Proof.
  intros Hl fr. unfold invoke. rewrite Hl. fold fr.
  eexists. split_and!; try reflexivity.
  - cbn [objects]. apply lookup_insert_eq.
  - apply (exec_track_accuracy c fr).
Qed.

Lemma invoke_get_track_accuracy (l : loc) (w : World) (t : TrainingProgress) :
  objects w !! l = Some t ->
  exists w' : World,
    invoke l get_track_accuracy w = (Ok (track_accuracy t), w')
    /\ objects w' !! l = Some t
    /\ calls w' = calls w
    /\ the_model w' = the_model w.
Proof.
  intros Hl. unfold invoke. rewrite Hl.
  eexists. split_and!; try reflexivity.
  cbn. apply lookup_insert_eq.
Qed.

Lemma train_loop_tracked e processor l bs :
  returns_pairs processor ->
  forall (w : World) (t : TrainingProgress),
    objects w !! l = Some t ->
    track_accuracy t = true ->
    exists (w' : World) (t' : TrainingProgress),
      train_loop e processor l bs w = (Ok tt, w')
      /\ objects w' !! l = Some t'
      /\ track_accuracy t' = true
      /\ calls w' = calls w ++ map (fun b => (b, Some true)) bs
      /\ the_model w' = the_model w.
Proof.
  intros Hp. induction bs as [| b bs IH]; intros w t Hl Ht.
  - exists w, t. cbn [train_loop map]. rewrite app_nil_r.
    split_and!; reflexivity || assumption.
  - cbn [train_loop map].
    destruct (invoke_get_track_accuracy l w t Hl) as (w1 & E1 & Hl1 & Hc1 & Hm1).
    rewrite (bind_ok _ _ w _ w1) by exact E1. rewrite Ht.
    destruct (Hp b (Some true)) as (lo & ac & Ep).
    set (w2 := {| class_attrs := class_attrs w1; objects := objects w1;
                  files := files w1; the_model := the_model w1;
                  calls := calls w1 ++ [(b, Some true)] |}).
    destruct (invoke_exec l (RecordBatch true e lo (Some ac)) w2 t Hl1)
      as (w3 & E3 & Hl3 & Ht3 & Hc3 & Hm3).
    destruct (update_progress_effect true e lo (Some ac)
                {| klass := class_attrs w2; self := t; disk := files w2 |})
      as (f' & Eu & _); [intros _; discriminate |].
    cbn [exec] in E3. rewrite Eu in E3. cbn [fst] in E3.
    assert (Estep :
      (r <- call_processor processor b (Some true) ;;
       p <- lift (unpack2 r) ;;
       invoke l (update_progress true e (fst p) (Some (snd p)))) w1
      = (Ok tt, w3)).
    { unfold call_processor, bind, modify, lift. fold w2. rewrite Ep.
      cbn [unpack2 fst snd]. exact E3. }
    rewrite (bind_ok _ _ w1 tt w3) by exact Estep.
    destruct (IH w3 _ Hl3) as (w' & t' & E' & Hl' & Ht' & Hc' & Hm').
    { rewrite Ht3. exact Ht. }
    exists w', t'. split_and!; try assumption.
    + rewrite Hc', Hc3. subst w2. cbn [calls]. rewrite Hc1, <- app_assoc.
      reflexivity.
    + rewrite Hm', Hm3. subst w2. cbn [the_model]. exact Hm1.
Qed.

Lemma valid_loop_tracked e processor l bs :
  returns_pairs processor ->
  forall (w : World) (t : TrainingProgress),
    objects w !! l = Some t ->
    track_accuracy t = true ->
    exists (w' : World) (t' : TrainingProgress),
      valid_loop e processor l bs w = (Ok tt, w')
      /\ objects w' !! l = Some t'
      /\ track_accuracy t' = true
      /\ calls w' = calls w ++ map (fun b => (b, Some false)) bs
      /\ the_model w' = the_model w.
Proof.
  intros Hp. induction bs as [| b bs IH]; intros w t Hl Ht.
  - exists w, t. cbn [valid_loop map]. rewrite app_nil_r.
    split_and!; reflexivity || assumption.
  - cbn [valid_loop map].
    destruct (invoke_get_track_accuracy l w t Hl) as (w1 & E1 & Hl1 & Hc1 & Hm1).
    rewrite (bind_ok _ _ w _ w1) by exact E1. rewrite Ht.
    destruct (Hp b (Some false)) as (lo & ac & Ep).
    set (w2 := {| class_attrs := class_attrs w1; objects := objects w1;
                  files := files w1; the_model := the_model w1;
                  calls := calls w1 ++ [(b, Some false)] |}).
    destruct (invoke_exec l (RecordBatch false e lo (Some ac)) w2 t Hl1)
      as (w3 & E3 & Hl3 & Ht3 & Hc3 & Hm3).
    destruct (update_progress_effect false e lo (Some ac)
                {| klass := class_attrs w2; self := t; disk := files w2 |})
      as (f' & Eu & _); [intros _; discriminate |].
    cbn [exec] in E3. rewrite Eu in E3. cbn [fst] in E3.
    assert (Estep :
      (r <- call_processor processor b (Some false) ;;
       p <- lift (unpack2 r) ;;
       invoke l (update_progress false e (fst p) (Some (snd p)))) w1
      = (Ok tt, w3)).
    { unfold call_processor, bind, modify, lift. fold w2. rewrite Ep.
      cbn [unpack2 fst snd]. exact E3. }
    rewrite (bind_ok _ _ w1 tt w3) by exact Estep.
    destruct (IH w3 _ Hl3) as (w' & t' & E' & Hl' & Ht' & Hc' & Hm').
    { rewrite Ht3. exact Ht. }
    exists w', t'. split_and!; try assumption.
    + rewrite Hc', Hc3. subst w2. cbn [calls]. rewrite Hc1, <- app_assoc.
      reflexivity.
    + rewrite Hm', Hm3. subst w2. cbn [the_model]. exact Hm1.
Qed.

Lemma invoke_exec_ok (l : loc) (c : call) (w : World) (t : TrainingProgress) :
  objects w !! l = Some t ->
  fst (exec c {| klass := class_attrs w; self := t; disk := files w |}) = Ok tt ->
  exists (w' : World) (t' : TrainingProgress),
    invoke l (exec c) w = (Ok tt, w')
    /\ objects w' !! l = Some t'
    /\ track_accuracy t' = track_accuracy t
    /\ calls w' = calls w
    /\ the_model w' = the_model w.
Proof.
  intros Hl Hok.
  destruct (invoke_exec l c w t Hl) as (w' & E & Hl' & Ht' & Hc' & Hm').
  rewrite Hok in E. exists w'. eexists. split_and!; eassumption.
Qed.

Lemma start_epoch_ok train (f : Frame) : fst (start_epoch train f) = Ok tt.
Proof. destruct train; reflexivity. Qed.

Lemma length_nonzero {A} (l : list A) : l <> [] -> Z.of_nat (length l) <> 0%Z.
Proof. destruct l; [congruence | cbn [length]; lia]. Qed.

(** On the path that tracks accuracy the driver passes the [train] flag
    with every batch: [True] over the training batches, then [False]
    over the validation batches. *)
Lemma train_epoch_tracked_calls
    (w : World) (l : loc) (t : TrainingProgress) (e : Z)
    (train_iterator valid_iterator : list Batch) (processor : Processor) :
  returns_pairs processor ->
  objects w !! l = Some t ->
  track_accuracy t = true ->
  train_iterator <> [] ->
  valid_iterator <> [] ->
  exists w' : World,
    train_epoch e train_iterator (Some valid_iterator) processor (Some l) w
    = (Ok tt, w')
    /\ calls w'
       = calls w ++ map (fun b => (b, Some true)) train_iterator
                 ++ map (fun b => (b, Some false)) valid_iterator.
Proof.
  intros Hp Hl Ht Htr Hva. unfold train_epoch.
  set (wa := {| class_attrs := class_attrs w; objects := objects w;
                files := files w;
                the_model := {| training := true;
                                state_dict := state_dict (the_model w) |};
                calls := calls w |}).
  rewrite (bind_ok _ _ w tt wa) by reflexivity.
  destruct (invoke_exec_ok l (StartPhase true) wa t Hl (start_epoch_ok _ _))
    as (wb & tb & Eb & Hlb & Htb & Hcb & _).
  rewrite (bind_ok _ _ wa tt wb) by exact Eb.
  destruct (train_loop_tracked e processor l train_iterator Hp wb tb Hlb)
    as (wc & tc & Ec & Hlc & Htc & Hcc & _); [congruence |].
  rewrite (bind_ok _ _ wb tt wc) by exact Ec.
  rewrite (bind_ok _ _ wc (the_model wc) wc) by reflexivity.
  destruct (invoke_exec_ok l
              (FinishPhase true e (the_model wc)
                 (Z.of_nat (length train_iterator))) wc tc Hlc)
    as (wd & td & Ed & Hld & Htd & Hcd & _).
  { apply finish_epoch_means, length_nonzero, Htr. }
  rewrite (bind_ok _ _ wc tt wd) by exact Ed.
  set (we := {| class_attrs := class_attrs wd; objects := objects wd;
                files := files wd;
                the_model := {| training := false;
                                state_dict := state_dict (the_model wd) |};
                calls := calls wd |}).
  rewrite (bind_ok _ _ wd tt we) by reflexivity.
  destruct (invoke_exec_ok l (StartPhase false) we td Hld (start_epoch_ok _ _))
    as (wf & tf & Ef & Hlf & Htf & Hcf & _).
  rewrite (bind_ok _ _ we tt wf) by exact Ef.
  destruct (valid_loop_tracked e processor l valid_iterator Hp wf tf Hlf)
    as (wg & tg & Eg & Hlg & Htg & Hcg & _); [congruence |].
  rewrite (bind_ok _ _ wf tt wg) by exact Eg.
  rewrite (bind_ok _ _ wg (the_model wg) wg) by reflexivity.
  destruct (invoke_exec_ok l
              (FinishPhase false e (the_model wg)
                 (Z.of_nat (length valid_iterator))) wg tg Hlg)
    as (wh & th & Eh & _ & _ & Hch & _).
  { apply finish_epoch_means, length_nonzero, Hva. }
  exists wh. split; [exact Eh |].
  rewrite Hch, Hcg, Hcf. subst we. cbn [calls].
  rewrite Hcd, Hcc, Hcb. subst wa. cbn [calls].
  rewrite <- app_assoc. reflexivity.
Qed.

(** ** Invariants of the tracker over any sequence of calls *)

Lemma exec_best_le (c : call) (f : Frame) :
  best_validation_loss (self (snd (exec c f))) <= best_validation_loss (self f).
Proof.
  destruct c as [train | train e loss acc | train e model n].
  - open_frame f. destruct train; apply Qle_refl.
  - open_frame f. destruct train, track_accuracy0, acc; apply Qle_refl.
  - cbn [exec]. destruct (Z.eq_dec n 0%Z) as [-> | Hn].
    + rewrite finish_epoch_zero. apply Qle_refl.
    + destruct train.
      * rewrite finish_epoch_train by exact Hn. open_frame f. apply Qle_refl.
      * destruct (finish_epoch_valid_spec e model n f Hn)
          as (f3 & (_ & _ & _ & _ & Hb & _) & ->).
        destruct (py_gt _ _) eqn:G; cbn [snd self].
        -- apply py_gt_spec in G. rewrite Hb in G.
           open_frame f3. apply Qlt_le_weak. exact G.
        -- rewrite Hb. apply Qle_refl.
Qed.

(** X1. The stored best validation loss never increases: after any
    sequence of calls, raised or not, it is at most what it was. *)
Theorem best_validation_loss_never_increases (cs : list call) (f : Frame) :
  best_validation_loss (self (exec_all cs f)) <= best_validation_loss (self f).
Proof.
  revert f. induction cs as [| c cs IH]; intros f; cbn [exec_all].
  - apply Qle_refl.
  - eapply Qle_trans; [apply IH | apply exec_best_le].
Qed.



Lemma exec_other_phase (c : call) (f : Frame) :
  value (snd (exec c f)) (loss_attr (negb (call_train c)))
  = value f (loss_attr (negb (call_train c)))
  /\ value (snd (exec c f)) (acc_attr (negb (call_train c)))
     = value f (acc_attr (negb (call_train c))).
Proof.
  destruct c as [train | train e loss acc | train e model n]; cbn [call_train].
  - open_frame f. destruct train; split; reflexivity.
  - open_frame f. destruct train, track_accuracy0, acc; split; reflexivity.
  - cbn [exec]. destruct (Z.eq_dec n 0%Z) as [-> | Hn].
    + rewrite finish_epoch_zero. open_frame f. destruct train; split; reflexivity.
    + destruct train.
      * rewrite finish_epoch_train by exact Hn. open_frame f. split; reflexivity.
      * destruct (finish_epoch_valid_spec e model n f Hn)
          as (f3 & (_ & _ & Hl & Ha & _) & ->).
        cbn [negb loss_attr acc_attr]. rewrite <- Hl, <- Ha.
        destruct (py_gt _ _); cbn [snd]; split; try reflexivity;
          rewrite (value_with_best _ _ (disk f3)); apply value_eta.
Qed.

(** X3. The two phases do not touch each other's accumulators: any
    sequence of calls made for one phase (training or validation),
    raised or not, leaves the loss and accuracy accumulators of the
    other phase as they were. *)
Theorem other_phase_accumulators_untouched
    (train : bool) (cs : list call) (f : Frame) :
  Forall (fun c => call_train c = train) cs ->
  value (exec_all cs f) (loss_attr (negb train)) = value f (loss_attr (negb train))
  /\ value (exec_all cs f) (acc_attr (negb train)) = value f (acc_attr (negb train)).
Proof.
  intros Hall. revert f.
  induction Hall as [| c cs Hc Hcs IH]; intros f; cbn [exec_all].
  - split; reflexivity.
  - destruct (IH (snd (exec c f))) as (Hl & Ha).
    destruct (exec_other_phase c f) as (Hl1 & Ha1).
    rewrite Hc in Hl1, Ha1. rewrite Hl, Ha. split; assumption.
Qed.

Lemma exec_epoch (c : call) (f : Frame) :
  epoch (self (snd (exec c f))) = last_epoch [c] (epoch (self f)).
Proof.
  destruct c as [train | train e loss acc | train e model n]; cbn [last_epoch].
  - open_frame f. destruct train; reflexivity.
  - open_frame f. destruct train, track_accuracy0, acc; reflexivity.
  - cbn [exec]. destruct (Z.eq_dec n 0%Z) as [-> | Hn].
    + rewrite finish_epoch_zero. reflexivity.
    + destruct train.
      * rewrite finish_epoch_train by exact Hn. open_frame f. reflexivity.
      * destruct (finish_epoch_valid_spec e model n f Hn)
          as (f3 & (_ & _ & _ & _ & _ & _ & He & _) & ->).
        destruct (py_gt _ _); cbn [snd self]; [| exact He].
        open_frame f3. exact He.
Qed.

(** X4. After any sequence of calls the stored epoch is the one passed
    to the last [update_progress] or [finish_epoch] (also when that call
    raised; [start_epoch] leaves it alone), and neither the
    [track_accuracy] flag nor the class attributes have changed. *)
Theorem epoch_is_last_written_and_flag_constant (cs : list call) (f : Frame) :
  epoch (self (exec_all cs f)) = last_epoch cs (epoch (self f))
  /\ track_accuracy (self (exec_all cs f)) = track_accuracy (self f)
  /\ klass (exec_all cs f) = klass f.
Proof.
  revert f. induction cs as [| c cs IH]; intros f; cbn [exec_all].
  - split_and!; reflexivity.
  - destruct (IH (snd (exec c f))) as (He & Ht & Hk).
    rewrite He, Ht, Hk, exec_epoch, exec_track_accuracy, exec_klass.
    split_and!; try reflexivity.
    destruct c; reflexivity.
Qed.

(** ** The driver as phases of the tracker *)

Lemma frame_eta (f : Frame) :
  {| klass := klass f; self := self f; disk := disk f |} = f.
Proof. destruct f; reflexivity. Qed.

Lemma commit_start (w : World) (l : loc) (t : TrainingProgress) :
  objects w !! l = Some t ->
  w = commit w l (frame_of w t) (the_model w) (calls w).
Proof.
  intros Hl. destruct w as [c o fs mo cs]. unfold commit, frame_of.
  cbn in *. rewrite (insert_id o l t Hl). reflexivity.
Qed.

Lemma invoke_commit {A} (m : M Frame A) w l f mo cs :
  invoke l m (commit w l f mo cs)
  = (fst (m f), commit w l (snd (m f)) mo cs).
Proof.
  unfold invoke, commit. cbn [objects class_attrs files the_model calls].
  rewrite lookup_insert_eq, frame_eta, insert_insert_eq. reflexivity.
Qed.

Lemma set_training_commit b w l f mo cs :
  set_training b (commit w l f mo cs) = (Ok tt, commit w l f (in_mode mo b) cs).
Proof. reflexivity. Qed.

Lemma call_processor_commit processor b kw w l f mo cs :
  call_processor processor b kw (commit w l f mo cs)
  = (processor b kw, commit w l f mo (cs ++ [(b, kw)])).
Proof. reflexivity. Qed.

Lemma update_progress_ok train e loss acc (f : Frame) :
  (track_accuracy (self f) = true -> acc <> None) ->
  update_progress train e loss acc f
  = (Ok tt, snd (update_progress train e loss acc f))
  /\ track_accuracy (self (snd (update_progress train e loss acc f)))
     = track_accuracy (self f).
Proof.
  intros H. destruct (update_progress_effect train e loss acc f H)
    as (f' & E & _ & _ & Ht).
  rewrite E. split; [reflexivity | exact Ht].
Qed.

Lemma record_all_cons train e r rs (f : Frame) :
  (track_accuracy (self f) = true -> snd r <> None) ->
  record_all train e (r :: rs) f
  = record_all train e rs (snd (update_progress train e (fst r) (snd r) f)).
Proof.
  intros H. destruct (update_progress_ok train e (fst r) (snd r) f H) as (E & _).
  cbn [record_all].
  exact (bind_ok _ (fun _ => record_all train e rs) f tt _ E).
Qed.

(** One turn of either loop on a batch the processor answers. *)
Lemma loop_body_commit train e processor l ta lo ac b w f mo cs :
  answers processor ta train lo ac b ->
  track_accuracy (self f) = ta ->
  let r := (lo b, if ta then Some (ac b) else None) in
  let f1 := snd (update_progress train e (fst r) (snd r) f) in
  (if ta
   then
     r <- call_processor processor b (Some train) ;;
     p <- lift (unpack2 r) ;;
     invoke l (update_progress train e (fst p) (Some (snd p)))
   else
     r <- call_processor processor b None ;;
     x <- lift (data0 r) ;;
     invoke l (update_progress train e x None))
    (commit w l f mo cs)
  = (Ok tt, commit w l f1 mo (cs ++ [(b, keyword ta train)]))
  /\ track_accuracy (self f1) = ta.
Proof.
  intros Ha Ht r f1. subst f1 r. cbn [fst snd]. unfold answers in Ha.
  destruct (update_progress_ok train e (lo b)
              (if ta then Some (ac b) else None) f) as (E & Ht1).
  { intros H. destruct ta; [discriminate | congruence]. }
  split; [| rewrite Ht1; exact Ht].
  destruct ta; cbn [keyword] in *;
    unfold bind; rewrite call_processor_commit, Ha;
    unfold lift; cbn [unpack2 data0 fst snd];
    rewrite invoke_commit, E; reflexivity.
Qed.

Lemma train_loop_run e processor l ta lo ac bs :
  Forall (answers processor ta true lo ac) bs ->
  forall rest w (f : Frame) mo cs,
    track_accuracy (self f) = ta ->
    train_loop e processor l (bs ++ rest) (commit w l f mo cs)
    = train_loop e processor l rest
        (commit w l (snd (record_all true e (records ta lo ac bs) f)) mo
           (cs ++ logged ta true bs))
      /\ track_accuracy (self (snd (record_all true e (records ta lo ac bs) f)))
         = ta.
Proof.
  induction 1 as [| b bs Hb Hbs IH]; intros rest w f mo cs Ht.
  - cbn [app records logged map record_all ret snd]. rewrite app_nil_r.
    split; [reflexivity | exact Ht].
  - destruct (loop_body_commit true e processor l ta lo ac b w f mo cs Hb Ht)
      as (Ebody & Ht1).
    cbn zeta in Ebody, Ht1.
    assert (Hacc : track_accuracy (self f) = true ->
                   snd (lo b, if ta then Some (ac b) else None) <> None).
    { cbn [snd]. intros H. destruct ta; [discriminate | congruence]. }
    cbn [records map]. rewrite record_all_cons by exact Hacc.
    fold (records ta lo ac bs).
    destruct (IH rest w _ mo (cs ++ [(b, keyword ta true)]) Ht1) as (E & Ht2).
    split; [| exact Ht2].
    cbn [app train_loop].
    rewrite (bind_ok _ _ _ ta (commit w l f mo cs))
      by (rewrite invoke_commit; cbn; rewrite Ht; reflexivity).
    rewrite (bind_ok _ _ _ tt _ Ebody).
    rewrite E. cbn [logged map]. rewrite <- app_assoc. reflexivity.
Qed.

Lemma valid_loop_run e processor l ta lo ac bs :
  Forall (answers processor ta false lo ac) bs ->
  forall rest w (f : Frame) mo cs,
    track_accuracy (self f) = ta ->
    valid_loop e processor l (bs ++ rest) (commit w l f mo cs)
    = valid_loop e processor l rest
        (commit w l (snd (record_all false e (records ta lo ac bs) f)) mo
           (cs ++ logged ta false bs))
      /\ track_accuracy (self (snd (record_all false e (records ta lo ac bs) f)))
         = ta.
Proof.
  induction 1 as [| b bs Hb Hbs IH]; intros rest w f mo cs Ht.
  - cbn [app records logged map record_all ret snd]. rewrite app_nil_r.
    split; [reflexivity | exact Ht].
  - destruct (loop_body_commit false e processor l ta lo ac b w f mo cs Hb Ht)
      as (Ebody & Ht1).
    cbn zeta in Ebody, Ht1.
    assert (Hacc : track_accuracy (self f) = true ->
                   snd (lo b, if ta then Some (ac b) else None) <> None).
    { cbn [snd]. intros H. destruct ta; [discriminate | congruence]. }
    cbn [records map]. rewrite record_all_cons by exact Hacc.
    fold (records ta lo ac bs).
    destruct (IH rest w _ mo (cs ++ [(b, keyword ta false)]) Ht1) as (E & Ht2).
    split; [| exact Ht2].
    cbn [app valid_loop].
    rewrite (bind_ok _ _ _ ta (commit w l f mo cs))
      by (rewrite invoke_commit; cbn; rewrite Ht; reflexivity).
    rewrite (bind_ok _ _ _ tt _ Ebody).
    rewrite E. cbn [logged map]. rewrite <- app_assoc. reflexivity.
Qed.

Lemma run_ok {S} (m : M S unit) (s : S) :
  fst (m s) = Ok tt -> m s = (Ok tt, snd (m s)).
Proof. destruct (m s) as [r s']. cbn. intros ->. reflexivity. Qed.

Lemma records_given ta lo ac bs (f : Frame) :
  track_accuracy (self f) = ta ->
  track_accuracy (self f) = true ->
  Forall (fun b : Q * option Q => snd b <> None) (records ta lo ac bs).
Proof.
  intros <- ->. induction bs as [| b bs IH]; constructor.
  - discriminate.
  - exact IH.
Qed.

(** A phase whose records carry what the tracker needs is the three
    calls in a row. *)
Lemma phase_unfold train e model ta lo ac bs (f : Frame) :
  track_accuracy (self f) = ta ->
  phase train e model (records ta lo ac bs) f
  = finish_epoch train e model (Z.of_nat (length bs))
      (snd (record_all train e (records ta lo ac bs) (snd (start_epoch train f)))).
Proof.
  intros Ht. unfold phase.
  destruct (start_epoch_effect train f) as (f0 & E0 & _ & _ & Ht0).
  rewrite (bind_ok _ _ f tt f0) by exact E0. rewrite E0. cbn [snd].
  destruct (record_all_effect train e (records ta lo ac bs) f0)
    as (f1 & E1 & _).
  { apply records_given. rewrite Ht0. exact Ht. }
  rewrite (bind_ok _ _ f0 tt f1) by exact E1. rewrite E1. cbn [snd].
  unfold records. rewrite length_map. reflexivity.
Qed.

Lemma start_epoch_track train (f : Frame) :
  track_accuracy (self (snd (start_epoch train f))) = track_accuracy (self f).
Proof.
  destruct (start_epoch_effect train f) as (f0 & E0 & _ & _ & Ht0).
  rewrite E0. exact Ht0.
Qed.

(** The driver on a processor that answers its batches: the training
    phase of the tracker, then (if it returned and there is a validation
    iterator) the validation phase, with the calls logged in order. *)
Lemma train_epoch_commit e processor l ta lo1 ac1 lo2 ac2 tr valid
    w (f : Frame) mo cs :
  track_accuracy (self f) = ta ->
  Forall (answers processor ta true lo1 ac1) tr ->
  (forall va,
     valid = Some va ->
     fst (phase true e (in_mode mo true) (records ta lo1 ac1 tr) f) = Ok tt ->
     Forall (answers processor ta false lo2 ac2) va) ->
  let out1 := phase true e (in_mode mo true) (records ta lo1 ac1 tr) f in
  let c1 := cs ++ logged ta true tr in
  train_epoch e tr valid processor (Some l) (commit w l f mo cs)
  = match fst out1, valid with
    | Raise ex, _ => (Raise ex, commit w l (snd out1) (in_mode mo true) c1)
    | Ok _, None => (Ok tt, commit w l (snd out1) (in_mode mo true) c1)
    | Ok _, Some va =>
        let out2 := phase false e (in_mode mo false)
                      (records ta lo2 ac2 va) (snd out1) in
        (fst out2,
         commit w l (snd out2) (in_mode mo false) (c1 ++ logged ta false va))
    end.
Proof.
  intros Ht Htr Hva out1 c1. subst out1 c1.
  rewrite phase_unfold in Hva by exact Ht.
  rewrite phase_unfold by exact Ht.
  unfold train_epoch.
  rewrite (bind_ok _ _ _ tt _ (set_training_commit true w l f mo cs)).
  rewrite (bind_ok _ _ _ tt (commit w l (snd (start_epoch true f)) (in_mode mo true) cs))
    by (rewrite invoke_commit, start_epoch_ok; reflexivity).
  destruct (train_loop_run e processor l ta lo1 ac1 tr Htr [] w
              (snd (start_epoch true f)) (in_mode mo true) cs)
    as (El & Htl); [rewrite start_epoch_track; exact Ht |].
  rewrite app_nil_r in El. cbn [train_loop] in El.
  rewrite (bind_ok _ _ _ tt _ El).
  set (fr := snd (record_all true e (records ta lo1 ac1 tr)
                    (snd (start_epoch true f)))) in *.
  rewrite (bind_ok _ _ _ (in_mode mo true)
             (commit w l fr (in_mode mo true) (cs ++ logged ta true tr)))
    by reflexivity.
  unfold bind at 1. rewrite invoke_commit.
  destruct (finish_epoch true e (in_mode mo true) (Z.of_nat (length tr)) fr)
    as [[[] | ex] fe] eqn:Ef; cbn [fst snd] in *; [| reflexivity].
  destruct valid as [va |]; [| reflexivity].
  specialize (Hva va eq_refl eq_refl).
  assert (Hte : track_accuracy (self fe) = ta).
  { pose proof (exec_track_accuracy
                  (FinishPhase true e (in_mode mo true) (Z.of_nat (length tr)))
                  fr) as H.
    cbn [exec] in H. rewrite Ef in H. cbn [snd] in H. rewrite H. exact Htl. }
  cbv zeta. rewrite phase_unfold by exact Hte.
  rewrite (bind_ok _ _ _ tt _
             (set_training_commit false w l fe (in_mode mo true)
                (cs ++ logged ta true tr))).
  change (in_mode (in_mode mo true) false) with (in_mode mo false).
  rewrite (bind_ok _ _ _ tt
             (commit w l (snd (start_epoch false fe)) (in_mode mo false)
                (cs ++ logged ta true tr)))
    by (rewrite invoke_commit, start_epoch_ok; reflexivity).
  destruct (valid_loop_run e processor l ta lo2 ac2 va Hva [] w
              (snd (start_epoch false fe)) (in_mode mo false)
              (cs ++ logged ta true tr))
    as (Ev & _); [rewrite start_epoch_track; exact Hte |].
  rewrite app_nil_r in Ev. cbn [valid_loop] in Ev.
  rewrite (bind_ok _ _ _ tt _ Ev).
  unfold bind at 1. cbn [gets the_model commit].
  apply invoke_commit.
Qed.

(** ** Phases as sequences of calls *)

Lemma exec_all_app (cs1 cs2 : list call) (f : Frame) :
  exec_all (cs1 ++ cs2) f = exec_all cs2 (exec_all cs1 f).
Proof.
  revert f. induction cs1 as [| c cs1 IH]; intros f; cbn [app exec_all].
  - reflexivity.
  - apply IH.
Qed.

Lemma record_all_as_calls train e recs :
  forall f : Frame,
    (track_accuracy (self f) = true -> Forall (fun r => snd r <> None) recs) ->
    fst (record_all train e recs f) = Ok tt
    /\ snd (record_all train e recs f)
       = exec_all (map (fun r => RecordBatch train e (fst r) (snd r)) recs) f.
Proof.
  induction recs as [| r recs IH]; intros f Hall.
  - split; reflexivity.
  - assert (Hr : track_accuracy (self f) = true -> snd r <> None).
    { intros Ht. specialize (Hall Ht). inversion Hall; assumption. }
    rewrite record_all_cons by exact Hr.
    destruct (update_progress_ok train e (fst r) (snd r) f Hr) as (_ & Ht1).
    cbn [map exec_all exec]. apply IH.
    rewrite Ht1. intros Ht. specialize (Hall Ht). inversion Hall; assumption.
Qed.

Lemma phase_as_calls train e model recs (f : Frame) :
  (track_accuracy (self f) = true -> Forall (fun r => snd r <> None) recs) ->
  snd (phase train e model recs f) = exec_all (phase_calls train e model recs) f.
Proof.
  intros Hall. unfold phase, phase_calls. cbn [exec_all exec].
  rewrite exec_all_app. cbn [exec_all exec].
  rewrite (bind_ok _ _ f tt _ (run_ok _ f (start_epoch_ok train f))).
  destruct (record_all_as_calls train e recs (snd (start_epoch train f)))
    as (Eok & Ecalls).
  { rewrite start_epoch_track. exact Hall. }
  rewrite (bind_ok _ _ _ tt _ (run_ok _ _ Eok)).
  rewrite Ecalls. reflexivity.
Qed.

Lemma exec_inert (c : call) (f : Frame) :
  validation_finishes [c] = O ->
  best_validation_loss (self (snd (exec c f))) = best_validation_loss (self f)
  /\ disk (snd (exec c f)) = disk f.
Proof.
  destruct c as [train | train e loss acc | train e model n]; intros Hc.
  - open_frame f. destruct train; split; reflexivity.
  - open_frame f. destruct train, track_accuracy0, acc; split; reflexivity.
  - destruct train; [| discriminate Hc].
    cbn [exec]. destruct (Z.eq_dec n 0%Z) as [-> | Hn].
    + rewrite finish_epoch_zero. split; reflexivity.
    + rewrite finish_epoch_train by exact Hn. open_frame f. split; reflexivity.
Qed.

Lemma validation_finishes_cons (c : call) (cs : list call) :
  validation_finishes (c :: cs)
  = (validation_finishes [c] + validation_finishes cs)%nat.
Proof. destruct c as [| | [] ? ? ?]; reflexivity. Qed.

Lemma exec_all_inert (cs : list call) :
  forall f : Frame,
    validation_finishes cs = O ->
    best_validation_loss (self (exec_all cs f)) = best_validation_loss (self f)
    /\ disk (exec_all cs f) = disk f.
Proof.
  induction cs as [| c cs IH]; intros f Hcs; cbn [exec_all].
  - split; reflexivity.
  - rewrite validation_finishes_cons in Hcs.
    destruct (IH (snd (exec c f)) ltac:(lia)) as (Hb & Hd).
    destruct (exec_inert c f ltac:(lia)) as (Hb1 & Hd1).
    rewrite Hb, Hd. split; assumption.
Qed.

Lemma exec_all_keeps (train : bool) (cs : list call) :
  Forall (fun c => call_train c = train) cs ->
  forall f : Frame,
    value (exec_all cs f) (loss_attr (negb train))
    = value f (loss_attr (negb train))
    /\ value (exec_all cs f) (acc_attr (negb train))
       = value f (acc_attr (negb train))
    /\ klass (exec_all cs f) = klass f
    /\ track_accuracy (self (exec_all cs f)) = track_accuracy (self f).
Proof.
  induction 1 as [| c cs Hc Hcs IH]; intros f; cbn [exec_all].
  - split_and!; reflexivity.
  - destruct (IH (snd (exec c f))) as (Hl & Ha & Hk & Ht).
    destruct (exec_other_phase c f) as (Hl1 & Ha1).
    rewrite Hc in Hl1, Ha1.
    rewrite Hl, Ha, Hk, Ht, exec_klass, exec_track_accuracy.
    split_and!; try reflexivity; assumption.
Qed.

Lemma phase_calls_train train e model recs :
  Forall (fun c => call_train c = train) (phase_calls train e model recs).
Proof.
  unfold phase_calls. constructor; [reflexivity |].
  apply Forall_app. split.
  - induction recs as [| r recs IH]; constructor; [reflexivity | exact IH].
  - constructor; [reflexivity | constructor].
Qed.

Lemma phase_calls_training_inert e model recs :
  validation_finishes (phase_calls true e model recs) = O.
Proof.
  unfold phase_calls. cbn [validation_finishes].
  generalize (Z.of_nat (length recs)). intros n.
  induction recs as [| r recs IH]; [reflexivity | exact IH].
Qed.

(** ** What a phase of the driver leaves in the tracker *)

Lemma records_fst ta lo ac (bs : list Batch) :
  map fst (records ta lo ac bs) = map lo bs.
Proof. unfold records. rewrite map_map. reflexivity. Qed.

Lemma records_snd lo ac (bs : list Batch) :
  map (fun r : Q * option Q => default 0 (snd r)) (records true lo ac bs)
  = map ac bs.
Proof. unfold records. rewrite map_map. reflexivity. Qed.

Lemma record_calls_inert train e (recs : list (Q * option Q)) :
  validation_finishes (map (fun r => RecordBatch train e (fst r) (snd r)) recs)
  = O.
Proof. induction recs as [| r recs IH]; [reflexivity | exact IH]. Qed.

(** The frame after [start_epoch] and the records of [bs]. *)
Lemma recorded_frame train e ta lo ac bs (f : Frame) :
  track_accuracy (self f) = ta ->
  let fr := snd (record_all train e (records ta lo ac bs)
                   (snd (start_epoch train f))) in
  value fr (loss_attr train) == Qsum (map lo bs)
  /\ (ta = true -> value fr (acc_attr train) == Qsum (map ac bs))
  /\ track_accuracy (self fr) = ta
  /\ best_validation_loss (self fr) = best_validation_loss (self f)
  /\ disk fr = disk f.
Proof.
  intros Ht fr.
  destruct (start_epoch_effect train f) as (f0 & E0 & Hl0 & Ha0 & Ht0).
  assert (Hall : track_accuracy (self f0) = true ->
                 Forall (fun r : Q * option Q => snd r <> None) (records ta lo ac bs)).
  { apply records_given. rewrite Ht0. exact Ht. }
  destruct (record_all_effect train e (records ta lo ac bs) f0 Hall)
    as (f1 & E1 & Hl1 & Ha1 & Ht1).
  destruct (record_all_as_calls train e (records ta lo ac bs) f0 Hall)
    as (_ & Ecalls).
  assert (Efr : fr = f1).
  { subst fr. rewrite E0. cbn [snd]. rewrite E1. reflexivity. }
  assert (Hin : best_validation_loss (self fr) = best_validation_loss (self f)
                /\ disk fr = disk f).
  { subst fr. rewrite E0. cbn [snd]. rewrite Ecalls.
    change f0 with (snd (Ok tt, f0)). rewrite <- E0.
    change (exec_all ?cs (snd (start_epoch train f)))
      with (exec_all (StartPhase train :: cs) f).
    apply exec_all_inert. cbn [validation_finishes].
    apply record_calls_inert. }
  rewrite Efr in *. destruct Hin as (Hb & Hd). split_and!.
  - rewrite Hl1, Hl0, records_fst. ring.
  - intros ->. rewrite Ha1 by (rewrite Ht0; exact Ht).
    rewrite Ha0, records_snd. ring.
  - rewrite Ht1, Ht0. exact Ht.
  - exact Hb.
  - exact Hd.
Qed.

Lemma phase_records_means train e model ta lo ac bs (f : Frame) :
  bs <> [] ->
  track_accuracy (self f) = ta ->
  let n := inject_Z (Z.of_nat (length bs)) in
  let out := phase train e model (records ta lo ac bs) f in
  fst out = Ok tt
  /\ value (snd out) (loss_attr train) == Qsum (map lo bs) / n
  /\ (ta = true -> value (snd out) (acc_attr train) == Qsum (map ac bs) / n).
Proof.
  intros Hne Ht n out. subst out n.
  rewrite phase_unfold by exact Ht.
  destruct (recorded_frame train e ta lo ac bs f Ht) as (Hl & Ha & _).
  cbv zeta in Hl, Ha.
  destruct (finish_epoch_means train e model _
              (snd (record_all train e (records ta lo ac bs)
                      (snd (start_epoch train f))))
              (length_nonzero bs Hne))
    as (Hr & Hl' & Ha').
  split_and!.
  - exact Hr.
  - rewrite Hl'. apply Qdiv_comp; [exact Hl | reflexivity].
  - intros Hta. rewrite Ha'. apply Qdiv_comp; [exact (Ha Hta) | reflexivity].
Qed.

Lemma phase_keeps train e model ta lo ac bs (f : Frame) :
  track_accuracy (self f) = ta ->
  let out := phase train e model (records ta lo ac bs) f in
  value (snd out) (loss_attr (negb train)) = value f (loss_attr (negb train))
  /\ value (snd out) (acc_attr (negb train)) = value f (acc_attr (negb train))
  /\ klass (snd out) = klass f
  /\ track_accuracy (self (snd out)) = ta.
Proof.
  intros Ht out. subst out.
  rewrite phase_as_calls by (apply records_given; exact Ht).
  destruct (exec_all_keeps train _ (phase_calls_train train e model
                                      (records ta lo ac bs)) f)
    as (Hl & Ha & Hk & Htr).
  rewrite Hl, Ha, Hk, Htr. split_and!; try reflexivity. exact Ht.
Qed.

Lemma phase_training_inert e model ta lo ac bs (f : Frame) :
  track_accuracy (self f) = ta ->
  let out := phase true e model (records ta lo ac bs) f in
  best_validation_loss (self (snd out)) = best_validation_loss (self f)
  /\ disk (snd out) = disk f.
Proof.
  intros Ht out. subst out.
  rewrite phase_as_calls by (apply records_given; exact Ht).
  apply exec_all_inert, phase_calls_training_inert.
Qed.

Lemma phase_validation_decision e model ta lo ac bs (f : Frame) :
  bs <> [] ->
  track_accuracy (self f) = ta ->
  let mean := Qsum (map lo bs) / inject_Z (Z.of_nat (length bs)) in
  let out := phase false e model (records ta lo ac bs) f in
  (mean < best_validation_loss (self f) ->
   best_validation_loss (self (snd out)) == mean
   /\ exists name, disk (snd out) = disk f ++ [(name, state_dict model)])
  /\ (~ mean < best_validation_loss (self f) ->
      best_validation_loss (self (snd out)) = best_validation_loss (self f)
      /\ disk (snd out) = disk f).
Proof.
  intros Hne Ht mean out. subst out.
  rewrite phase_unfold by exact Ht.
  destruct (recorded_frame false e ta lo ac bs f Ht) as (Hl & _ & _ & Hb & Hd).
  cbv zeta in Hl, Hb, Hd.
  set (fr := snd (record_all false e (records ta lo ac bs)
                    (snd (start_epoch false f)))) in *.
  destruct (finish_epoch_valid_spec e model _ fr (length_nonzero bs Hne))
    as (f3 & (Hl3 & _ & _ & _ & Hb3 & _ & _ & Hd3 & _) & ->).
  assert (Hmean : value f3 average_validation_loss == mean).
  { rewrite Hl3. apply Qdiv_comp; [exact Hl | reflexivity]. }
  rewrite Hb3, Hb.
  destruct (py_gt _ _) eqn:G; cbn [snd self disk].
  - apply py_gt_spec in G. rewrite Hmean in G. split.
    + intros _. split.
      * open_frame f3. exact Hmean.
      * rewrite Hd3, Hd. eexists. reflexivity.
    + intros Hnot. contradiction.
  - assert (Hnot : ~ mean < best_validation_loss (self f)).
    { intros H. rewrite <- Hmean in H. apply py_gt_spec in H. congruence. }
    split.
    + intros H. contradiction.
    + intros _. rewrite Hb3, Hb, Hd3, Hd. split; reflexivity.
Qed.

Lemma phase_empty train e model ta lo ac (f : Frame) :
  let out := phase train e model (records ta lo ac []) f in
  fst out = Raise ZeroDivisionError
  /\ best_validation_loss (self (snd out)) = best_validation_loss (self f)
  /\ disk (snd out) = disk f.
Proof. open_frame f. destruct train; split_and!; reflexivity. Qed.

(** ** One epoch of the driver *)

Lemma train_epoch_run e processor l lo1 ac1 lo2 ac2 tr valid
    (w : World) (t : TrainingProgress) :
  objects w !! l = Some t ->
  Forall (answers processor (track_accuracy t) true lo1 ac1) tr ->
  (forall va,
     valid = Some va ->
     fst (phase true e (in_mode (the_model w) true)
            (records (track_accuracy t) lo1 ac1 tr) (frame_of w t)) = Ok tt ->
     Forall (answers processor (track_accuracy t) false lo2 ac2) va) ->
  let ta := track_accuracy t in
  let out1 := phase true e (in_mode (the_model w) true)
                (records ta lo1 ac1 tr) (frame_of w t) in
  let c1 := calls w ++ logged ta true tr in
  train_epoch e tr valid processor (Some l) w
  = match fst out1, valid with
    | Raise ex, _ =>
        (Raise ex, commit w l (snd out1) (in_mode (the_model w) true) c1)
    | Ok _, None =>
        (Ok tt, commit w l (snd out1) (in_mode (the_model w) true) c1)
    | Ok _, Some va =>
        let out2 := phase false e (in_mode (the_model w) false)
                      (records ta lo2 ac2 va) (snd out1) in
        (fst out2,
         commit w l (snd out2) (in_mode (the_model w) false)
           (c1 ++ logged ta false va))
    end.
Proof.
  intros Hl Htr Hva ta out1 c1.
  transitivity (train_epoch e tr valid processor (Some l)
                  (commit w l (frame_of w t) (the_model w) (calls w))).
  - f_equal. apply commit_start. exact Hl.
  - apply (train_epoch_commit e processor l ta lo1 ac1 lo2 ac2 tr valid
             w (frame_of w t) (the_model w) (calls w));
      [reflexivity | exact Htr | exact Hva].
Qed.

Lemma observed_commit w l (f : Frame) mo cs a :
  observed (commit w l f mo cs) l a = Some (value f a).
Proof.
  unfold observed, commit. cbn [objects class_attrs].
  rewrite lookup_insert_eq. reflexivity.
Qed.

Lemma observed_start w l t a :
  objects w !! l = Some t -> observed w l a = Some (value (frame_of w t) a).
Proof. intros Hl. unfold observed. rewrite Hl. reflexivity. Qed.



(** The checkpoint decision of one epoch, with the tracker it leaves. *)
Lemma train_epoch_decision
    (w : World) (l : loc) (t : TrainingProgress) (e : Z)
    (tr va : list Batch) (processor : Processor)
    (lo1 ac1 lo2 ac2 : Batch -> Q) :
  objects w !! l = Some t ->
  Forall (answers processor (track_accuracy t) true lo1 ac1) tr ->
  Forall (answers processor (track_accuracy t) false lo2 ac2) va ->
  tr <> [] ->
  va <> [] ->
  let w' := snd (train_epoch e tr (Some va) processor (Some l) w) in
  let mean := Qsum (map lo2 va) / inject_Z (Z.of_nat (length va)) in
  exists t' : TrainingProgress,
    objects w' !! l = Some t'
    /\ track_accuracy t' = track_accuracy t
    /\ (mean < best_validation_loss t ->
        best_validation_loss t' == mean
        /\ exists name,
             files w' = files w ++ [(name, state_dict (the_model w))])
    /\ (~ mean < best_validation_loss t ->
        best_validation_loss t' = best_validation_loss t
        /\ files w' = files w).
Proof.
  intros Hl Htr Hva Hne1 Hne2 w' mean. subst w' mean.
  rewrite (train_epoch_run e processor l lo1 ac1 lo2 ac2 tr (Some va) w t Hl Htr)
    by (intros va' [= <-] _; exact Hva).
  cbv zeta.
  destruct (phase_records_means true e (in_mode (the_model w) true)
              (track_accuracy t) lo1 ac1 tr (frame_of w t) Hne1 eq_refl)
    as (Hok1 & _).
  destruct (phase_keeps true e (in_mode (the_model w) true)
              (track_accuracy t) lo1 ac1 tr (frame_of w t) eq_refl)
    as (_ & _ & _ & Ht1).
  destruct (phase_training_inert e (in_mode (the_model w) true)
              (track_accuracy t) lo1 ac1 tr (frame_of w t) eq_refl)
    as (Hb1 & Hd1).
  rewrite Hok1.
  set (f1 := snd (phase true e (in_mode (the_model w) true)
                    (records (track_accuracy t) lo1 ac1 tr) (frame_of w t))) in *.
  destruct (phase_validation_decision e (in_mode (the_model w) false)
              (track_accuracy t) lo2 ac2 va f1 Hne2 Ht1)
    as (Hyes & Hno).
  cbn [frame_of self disk] in Hb1, Hd1. rewrite Hb1, Hd1 in Hyes, Hno.
  destruct (phase_keeps false e (in_mode (the_model w) false)
              (track_accuracy t) lo2 ac2 va f1 Ht1)
    as (_ & _ & _ & Ht2).
  eexists. cbn [snd commit objects files].
  split; [apply lookup_insert_eq |]. split; [exact Ht2 |]. split.
  - intros Hlt. exact (Hyes Hlt).
  - intros Hnot. exact (Hno Hnot).
Qed.


(** X8. Running the epoch again on the same batches, with the
    processor answering as before, never writes a second checkpoint: the
    files and the stored best after the second run are those after the
    first. *)
Theorem train_epoch_again_writes_nothing
    (w : World) (l : loc) (t : TrainingProgress) (e e' : Z)
    (tr va : list Batch) (processor : Processor)
    (lo1 ac1 lo2 ac2 : Batch -> Q) :
  objects w !! l = Some t ->
  Forall (answers processor (track_accuracy t) true lo1 ac1) tr ->
  Forall (answers processor (track_accuracy t) false lo2 ac2) va ->
  tr <> [] ->
  va <> [] ->
  let w1 := snd (train_epoch e tr (Some va) processor (Some l) w) in
  let w2 := snd (train_epoch e' tr (Some va) processor (Some l) w1) in
  files w2 = files w1
  /\ exists t1 t2 : TrainingProgress,
       objects w1 !! l = Some t1
       /\ objects w2 !! l = Some t2
       /\ best_validation_loss t2 = best_validation_loss t1.
Proof.
  intros Hl Htr Hva Hne1 Hne2 w1 w2.
  destruct (train_epoch_decision w l t e tr va processor lo1 ac1 lo2 ac2
              Hl Htr Hva Hne1 Hne2)
    as (t1 & Hl1 & Ht1 & Hyes & Hno).
  fold w1 in Hl1, Hyes, Hno.
  rewrite <- Ht1 in Htr, Hva.
  destruct (train_epoch_decision w1 l t1 e' tr va processor lo1 ac1 lo2 ac2
              Hl1 Htr Hva Hne1 Hne2)
    as (t2 & Hl2 & _ & _ & Hno2).
  fold w2 in Hl2, Hno2.
  assert (Hnot : ~ Qsum (map lo2 va) / inject_Z (Z.of_nat (length va))
                   < best_validation_loss t1).
  { destruct (Qlt_le_dec (Qsum (map lo2 va) / inject_Z (Z.of_nat (length va)))
                (best_validation_loss t)) as [Hlt | Hle].
    - destruct (Hyes Hlt) as (Hb & _). rewrite Hb. apply Qlt_irrefl.
    - destruct (Hno (Qle_not_lt _ _ Hle)) as (Hb & _). rewrite Hb.
      apply Qle_not_lt. exact Hle. }
  destruct (Hno2 Hnot) as (Hb2 & Hf2).
  split; [exact Hf2 |]. exists t1, t2. split_and!; assumption.
Qed.

(** X9. With a tracker at [l] and an empty training iterator,
    [train_epoch] raises [ZeroDivisionError] whatever the validation
    iterator and the processor are: the processor is never called, no
    file is written, the stored best is kept, and the model is left in
    training mode. *)
Theorem train_epoch_empty_training
    (w : World) (l : loc) (t : TrainingProgress) (e : Z)
    (valid : option (list Batch)) (processor : Processor) :
  objects w !! l = Some t ->
  let out := train_epoch e [] valid processor (Some l) w in
  fst out = Raise ZeroDivisionError
  /\ calls (snd out) = calls w
  /\ files (snd out) = files w
  /\ training (the_model (snd out)) = true
  /\ exists t' : TrainingProgress,
       objects (snd out) !! l = Some t'
       /\ best_validation_loss t' = best_validation_loss t.
Proof.
  intros Hl out. subst out.
  destruct (phase_empty true e (in_mode (the_model w) true) (track_accuracy t)
              (fun _ => 0) (fun _ => 0) (frame_of w t))
    as (Hraise & Hb & Hd).
  rewrite (train_epoch_run e processor l (fun _ => 0) (fun _ => 0)
             (fun _ => 0) (fun _ => 0) [] valid w t Hl (Forall_nil_2 _))
    by (intros va _ Hok; rewrite Hraise in Hok; discriminate Hok).
  cbv zeta. rewrite Hraise.
  cbn [fst snd commit calls files the_model in_mode training objects logged map].
  rewrite app_nil_r.
  split_and!; [reflexivity | reflexivity | exact Hd | reflexivity |].
  eexists. split; [apply lookup_insert_eq | exact Hb].
Qed.

(** X10. With an empty validation iterator (a list, not [None]) the
    driver runs the whole training phase and then raises
    [ZeroDivisionError]: the tracker holds the mean training loss, the
    processor has been called for the training batches only, no file has
    been written, and the model is left in evaluation mode. *)
Theorem train_epoch_empty_validation
    (w : World) (l : loc) (t : TrainingProgress) (e : Z)
    (tr : list Batch) (processor : Processor) (lo1 ac1 : Batch -> Q) :
  objects w !! l = Some t ->
  Forall (answers processor (track_accuracy t) true lo1 ac1) tr ->
  tr <> [] ->
  let out := train_epoch e tr (Some []) processor (Some l) w in
  fst out = Raise ZeroDivisionError
  /\ calls (snd out)
     = calls w ++ map (fun b => (b, keyword (track_accuracy t) true)) tr
  /\ files (snd out) = files w
  /\ training (the_model (snd out)) = false
  /\ exists v : Q,
       observed (snd out) l average_training_loss = Some v
       /\ v == Qsum (map lo1 tr) / inject_Z (Z.of_nat (length tr)).
Proof.
  intros Hl Htr Hne out. subst out.
  rewrite (train_epoch_run e processor l lo1 ac1 (fun _ => 0) (fun _ => 0)
             tr (Some []) w t Hl Htr)
    by (intros va' [= <-] _; constructor).
  cbv zeta.
  destruct (phase_records_means true e (in_mode (the_model w) true)
              (track_accuracy t) lo1 ac1 tr (frame_of w t) Hne eq_refl)
    as (Hok1 & Hl1 & _).
  destruct (phase_keeps true e (in_mode (the_model w) true)
              (track_accuracy t) lo1 ac1 tr (frame_of w t) eq_refl)
    as (_ & _ & _ & Ht1).
  destruct (phase_training_inert e (in_mode (the_model w) true)
              (track_accuracy t) lo1 ac1 tr (frame_of w t) eq_refl)
    as (_ & Hd1).
  rewrite Hok1.
  set (f1 := snd (phase true e (in_mode (the_model w) true)
                    (records (track_accuracy t) lo1 ac1 tr) (frame_of w t))) in *.
  destruct (phase_empty false e (in_mode (the_model w) false)
              (track_accuracy t) (fun _ => 0) (fun _ => 0) f1)
    as (Hraise & _ & Hd2).
  destruct (phase_keeps false e (in_mode (the_model w) false)
              (track_accuracy t) (fun _ : Batch => 0) (fun _ => 0) [] f1 Ht1)
    as (Hkl & _).
  cbn [negb loss_attr] in Hkl, Hl1.
  cbn [fst snd commit calls files the_model in_mode training logged map].
  rewrite app_nil_r, observed_commit.
  split_and!;
    [ exact Hraise | reflexivity | rewrite Hd2; exact Hd1 | reflexivity | ].
  eexists. split; [reflexivity |]. rewrite Hkl. exact Hl1.
Qed.

(** X11. With [valid_iterator=None] and a processor that answers the
    training batches, the driver returns normally after the training
    phase alone: the processor has been called for the training batches
    only, no file has been written, the stored best and both validation
    accumulators are as before, and the model is left in training mode. *)
Theorem train_epoch_without_validation
    (w : World) (l : loc) (t : TrainingProgress) (e : Z)
    (tr : list Batch) (processor : Processor) (lo1 ac1 : Batch -> Q) :
  objects w !! l = Some t ->
  Forall (answers processor (track_accuracy t) true lo1 ac1) tr ->
  tr <> [] ->
  let out := train_epoch e tr None processor (Some l) w in
  fst out = Ok tt
  /\ calls (snd out)
     = calls w ++ map (fun b => (b, keyword (track_accuracy t) true)) tr
  /\ files (snd out) = files w
  /\ training (the_model (snd out)) = true
  /\ observed (snd out) l average_validation_loss
     = observed w l average_validation_loss
  /\ observed (snd out) l average_validation_acc
     = observed w l average_validation_acc
  /\ exists t' : TrainingProgress,
       objects (snd out) !! l = Some t'
       /\ best_validation_loss t' = best_validation_loss t.
Proof.
  intros Hl Htr Hne out. subst out.
  rewrite (train_epoch_run e processor l lo1 ac1 (fun _ => 0) (fun _ => 0)
             tr None w t Hl Htr)
    by (intros va' [=]).
  cbv zeta.
  destruct (phase_records_means true e (in_mode (the_model w) true)
              (track_accuracy t) lo1 ac1 tr (frame_of w t) Hne eq_refl)
    as (Hok1 & _).
  destruct (phase_keeps true e (in_mode (the_model w) true)
              (track_accuracy t) lo1 ac1 tr (frame_of w t) eq_refl)
    as (Hkl & Hka & _).
  destruct (phase_training_inert e (in_mode (the_model w) true)
              (track_accuracy t) lo1 ac1 tr (frame_of w t) eq_refl)
    as (Hb1 & Hd1).
  rewrite Hok1. cbn [negb loss_attr acc_attr] in Hkl, Hka.
  cbn [fst snd commit calls files the_model in_mode training logged objects].
  rewrite !observed_commit, !(observed_start w l t _ Hl), Hkl, Hka.
  split_and!;
    [ reflexivity | reflexivity | exact Hd1 | reflexivity
    | reflexivity | reflexivity | ].
  eexists. split; [apply lookup_insert_eq | exact Hb1].
Qed.

Lemma bind_raises {S A B} (c : M S A) (k : A -> M S B) s ex s' :
  c s = (Raise ex, s') -> bind c k s = (Raise ex, s').
Proof. intros H. unfold bind. rewrite H. reflexivity. Qed.

Lemma train_loop_raises e processor l ta b post ex w (f : Frame) mo cs :
  track_accuracy (self f) = ta ->
  processor b (keyword ta true) = Raise ex ->
  train_loop e processor l (b :: post) (commit w l f mo cs)
  = (Raise ex, commit w l f mo (cs ++ [(b, keyword ta true)])).
Proof.
  intros Ht Hex. cbn [train_loop].
  rewrite (bind_ok _ _ _ ta (commit w l f mo cs))
    by (rewrite invoke_commit; cbn; rewrite Ht; reflexivity).
  apply bind_raises.
  destruct ta; cbn [keyword] in Hex; unfold bind;
    rewrite call_processor_commit, Hex; reflexivity.
Qed.

(** X12. An exception raised by the processor leaves [train_epoch]
    as it is, at once.  If the processor answers the training
    batches [pre] and raises [ex] on the next batch [b], the driver
    raises [ex]; the processor has been called for [pre] and [b] and for
    no later batch, no file has been written, the model is in training
    mode, and the training-loss accumulator holds the plain sum of the
    losses of [pre], not yet divided. *)
Theorem train_epoch_processor_raises
    (w : World) (l : loc) (t : TrainingProgress) (e : Z)
    (pre post : list Batch) (b : Batch) (ex : exn)
    (valid : option (list Batch)) (processor : Processor)
    (lo1 ac1 : Batch -> Q) :
  objects w !! l = Some t ->
  Forall (answers processor (track_accuracy t) true lo1 ac1) pre ->
  processor b (keyword (track_accuracy t) true) = Raise ex ->
  let out := train_epoch e (pre ++ b :: post) valid processor (Some l) w in
  fst out = Raise ex
  /\ calls (snd out)
     = calls w ++ map (fun b => (b, keyword (track_accuracy t) true)) pre
               ++ [(b, keyword (track_accuracy t) true)]
  /\ files (snd out) = files w
  /\ training (the_model (snd out)) = true
  /\ exists v : Q,
       observed (snd out) l average_training_loss = Some v
       /\ v == Qsum (map lo1 pre).
Proof.
  intros Hl Hpre Hex out. subst out.
  set (ta := track_accuracy t) in *.
  set (f := frame_of w t).
  set (mo := in_mode (the_model w) true).
  set (fr := snd (record_all true e (records ta lo1 ac1 pre)
                    (snd (start_epoch true f)))).
  assert (E : train_epoch e (pre ++ b :: post) valid processor (Some l) w
              = (Raise ex,
                 commit w l fr mo
                   ((calls w ++ logged ta true pre) ++ [(b, keyword ta true)]))).
  { transitivity (train_epoch e (pre ++ b :: post) valid processor (Some l)
                    (commit w l f (the_model w) (calls w))).
    { f_equal. apply commit_start. exact Hl. }
    unfold train_epoch.
    rewrite (bind_ok _ _ _ tt _
               (set_training_commit true w l f (the_model w) (calls w))).
    fold mo.
    rewrite (bind_ok _ _ _ tt (commit w l (snd (start_epoch true f)) mo (calls w)))
      by (rewrite invoke_commit, start_epoch_ok; reflexivity).
    apply bind_raises.
    destruct (train_loop_run e processor l ta lo1 ac1 pre Hpre (b :: post) w
                (snd (start_epoch true f)) mo (calls w))
      as (El & Htl); [rewrite start_epoch_track; reflexivity |].
    rewrite El. apply train_loop_raises; [exact Htl | exact Hex]. }
  rewrite E.
  destruct (recorded_frame true e ta lo1 ac1 pre f eq_refl)
    as (Hsum & _ & _ & _ & Hd).
  cbv zeta in Hsum, Hd. fold fr in Hsum, Hd.
  cbn [fst snd commit calls files the_model mo in_mode training].
  rewrite observed_commit.
  split_and!;
    [ reflexivity | rewrite <- app_assoc; reflexivity | exact Hd
    | reflexivity | ].
  eexists. split; [reflexivity | exact Hsum].
Qed.

(** ** What the driver never touches, whatever the processor does *)





















End Tracker.

(** ** The statements at concrete inputs *)

(** The end-to-end scenarios: on a fresh tracker with best validation
    loss 1e6, a training phase with losses 2 and 4 has mean loss 3; a
    validation phase with losses 1 and 1 has mean 1, writes one
    checkpoint and stores 1 as the best; the same validation phase once
    more writes nothing. *)
Example end_to_end_scenarios :
  let f : @Frame unit :=
    {| klass := TrainingProgress_class;
       self := __init__ 0 true default_best_validation_loss;
       disk := [] |} in
  let model : @Model unit := {| training := true; state_dict := tt |} in
  let f1 := snd (phase true 0 model [(2, Some 1); (4, Some 1)] f) in
  let f2 := snd (phase false 0 model [(1, Some 1); (1, Some 1)] f1) in
  let f3 := snd (phase false 0 model [(1, Some 1); (1, Some 1)] f2) in
  value f1 average_training_loss == 3
  /\ disk f1 = []
  /\ value f2 average_validation_loss == 1
  /\ best_validation_loss (self f2) == 1
  /\ disk f2 = [("epoch-0-1.pt", tt)]
  /\ disk f3 = disk f2.
Proof. intros f model f1 f2 f3. split_and!; vm_compute; reflexivity. Qed.



(** One validation batch with loss 1 and accuracy 7/10 in epoch 3. *)
Lemma finish_epoch_checkpoint_name_truncates_witness :
  let f : @Frame unit :=
    {| klass := TrainingProgress_class;
       self := write_attr (write_attr (__init__ 3 true default_best_validation_loss)
                        average_validation_loss 1)
                 average_validation_acc (7 # 10);
       disk := [] |} in
  let model : @Model unit := {| training := false; state_dict := tt |} in
  (1 <> 0)%Z
  /\ value f average_validation_loss / inject_Z 1
     < best_validation_loss (self f)
  /\ exists k : Z,
       truncation (value f average_validation_acc / inject_Z 1) k
       /\ disk (snd (finish_epoch false 3 model 1 f))
          = disk f ++ [(("epoch-" ++ fmt_d 3 ++ "-" ++ fmt_d k ++ ".pt")%string,
                        state_dict model)].
Proof.
  intros f model.
  assert (H1 : (1 <> 0)%Z) by lia.
  assert (H2 : value f average_validation_loss / inject_Z 1
               < best_validation_loss (self f)) by reflexivity.
  split; [exact H1 |]. split; [exact H2 |].
  exact (finish_epoch_checkpoint_name_truncates f 3 model 1 H1 H2).
Defined.

(** C3 as stated fails.  A validation phase of epoch 3 with one batch of
    loss 1 and accuracy 7/10 on a fresh tracker writes [epoch-3-0.pt];
    the integer nearest to 7/10 is 1, and no integer nearest to the mean
    accuracy gives the name of the file that was written. *)
Lemma checkpoint_name_is_not_rounded :
  let f : @Frame unit :=
    {| klass := TrainingProgress_class;
       self := __init__ 0 true default_best_validation_loss;
       disk := [] |} in
  let model : @Model unit := {| training := false; state_dict := tt |} in
  let out := phase false 3 model [(1, Some (7 # 10))] f in
  fst out = Ok tt
  /\ value (snd out) average_validation_acc == 7 # 10
  /\ disk (snd out) = [("epoch-3-0.pt", tt)]
  /\ nearest (7 # 10) 1
  /\ forall k : Z,
       nearest (7 # 10) k ->
       disk (snd out) <> [(checkpoint_name 3 k, tt)].
Proof.
  intros f model out. split_and!.
  - reflexivity.
  - reflexivity.
  - reflexivity.
  - split; discriminate.
  - intros k [H1 H2].
    assert (k = 1%Z) as ->.
    { revert H1 H2. unfold Qle, inject_Z, Qminus, Qplus, Qopp. cbn. lia. }
    vm_compute. discriminate.
Defined.

(** A tracker that tracks accuracy, called without one. *)
Lemma update_progress_missing_accuracy_raises_witness :
  let f : @Frame unit :=
    {| klass := TrainingProgress_class;
       self := __init__ 0 true default_best_validation_loss;
       disk := [] |} in
  track_accuracy (self f) = true
  /\ (let out := update_progress true 0 2 None f in
      fst out = Raise TypeError
      /\ value (snd out) average_training_acc = value f average_training_acc
      /\ value (snd out) average_validation_acc
         = value f average_validation_acc
      /\ value (snd out) (loss_attr true) = value f (loss_attr true) + 2).
Proof.
  intros f.
  split; [reflexivity |].
  apply (update_progress_missing_accuracy_raises f true 0 2). reflexivity.
Defined.

(** Two fresh trackers; a whole training phase runs on the first. *)
Lemma other_instance_unaffected_witness :
  let w : @World unit nat :=
    {| class_attrs := TrainingProgress_class;
       objects := {[ 0%nat := __init__ 0 true default_best_validation_loss;
                     1%nat := __init__ 0 true default_best_validation_loss ]};
       files := [];
       the_model := {| training := true; state_dict := tt |};
       calls := [] |} in
  let cs : list (@call unit) :=
    [StartPhase true; RecordBatch true 0 2 (Some 1);
     FinishPhase true 0 {| training := true; state_dict := tt |} 1] in
  0%nat <> 1%nat
  /\ objects (invoke_all 0%nat cs w) !! 1%nat = objects w !! 1%nat
  /\ class_attrs (invoke_all 0%nat cs w) = class_attrs w
  /\ forall a : attr,
       observed (invoke_all 0%nat cs w) 1%nat a = observed w 1%nat a.
Proof.
  intros w cs.
  split; [lia |].
  apply (other_instance_unaffected w 0%nat 1%nat cs). lia.
Defined.

(** C4 fails on the path that does not track accuracy.  For a tracker
    built with [track_accuracy=False], one training batch and one
    validation batch, the driver returns normally having called
    [processor(batch)] twice with no [train] argument, where the
    specification has [(batch, True)] and then [(batch, False)]. *)
Theorem train_epoch_untracked_omits_train_flag :
  let w : @World unit nat :=
    {| class_attrs := TrainingProgress_class;
       objects := {[ 0%nat := __init__ 0 false default_best_validation_loss ]};
       files := [];
       the_model := {| training := false; state_dict := tt |};
       calls := [] |} in
  let processor : @Processor nat := fun _ _ => Ok (Tensor 1) in
  let out := train_epoch 0 [10%nat] (Some [20%nat]) processor (Some 0%nat) w in
  fst out = Ok tt
  /\ calls (snd out) = [(10%nat, None); (20%nat, None)]
  /\ calls (snd out) <> [(10%nat, Some true); (20%nat, Some false)].
Proof.
  intros w processor out. split_and!.
  - vm_compute. reflexivity.
  - vm_compute. reflexivity.
  - vm_compute. discriminate.
Qed.

(** ** The further statements at concrete inputs *)

(** A training phase on a tracker whose validation side holds 5 and 6. *)
Lemma other_phase_accumulators_untouched_witness :
  let f : @Frame unit :=
    {| klass := TrainingProgress_class;
       self := write_attr (write_attr
                 (__init__ 0 true default_best_validation_loss)
                 average_validation_loss 5) average_validation_acc 6;
       disk := [] |} in
  let cs : list (@call unit) :=
    [StartPhase true; RecordBatch true 1 2 (Some 1);
     FinishPhase true 1 {| training := true; state_dict := tt |} 1] in
  Forall (fun c => call_train c = true) cs
  /\ value (exec_all cs f) (loss_attr (negb true))
     = value f (loss_attr (negb true))
  /\ value (exec_all cs f) (acc_attr (negb true))
     = value f (acc_attr (negb true)).
Proof.
  intros f cs.
  assert (H : Forall (fun c => call_train c = true) cs)
    by (subst cs; repeat constructor).
  split; [exact H |].
  exact (other_phase_accumulators_untouched true cs f H).
Defined.




(** The same epoch run twice, as epochs 0 and 1. *)
Lemma train_epoch_again_writes_nothing_witness :
  let t := __init__ 0 true default_best_validation_loss in
  let w : @World unit nat :=
    {| class_attrs := TrainingProgress_class;
       objects := {[ 0%nat := t ]};
       files := [];
       the_model := {| training := false; state_dict := tt |};
       calls := [] |} in
  let lo : nat -> Q := fun b => inject_Z (Z.of_nat b) in
  let ac : nat -> Q := fun _ => 1 in
  let processor : @Processor nat := fun b _ => Ok (Pair (lo b) (ac b)) in
  let tr := [2%nat; 4%nat] in
  let va := [1%nat; 1%nat] in
  objects w !! 0%nat = Some t
  /\ Forall (answers processor (track_accuracy t) true lo ac) tr
  /\ Forall (answers processor (track_accuracy t) false lo ac) va
  /\ tr <> []
  /\ va <> []
  /\ (let w1 := snd (train_epoch 0 tr (Some va) processor (Some 0%nat) w) in
      let w2 := snd (train_epoch 1 tr (Some va) processor (Some 0%nat) w1) in
      files w2 = files w1
      /\ exists t1 t2 : TrainingProgress,
           objects w1 !! 0%nat = Some t1
           /\ objects w2 !! 0%nat = Some t2
           /\ best_validation_loss t2 = best_validation_loss t1).
Proof.
  intros t w lo ac processor tr va.
  assert (H1 : objects w !! 0%nat = Some t)
    by (reflexivity).
  assert (H2 : Forall (answers processor (track_accuracy t) true lo ac) tr)
    by (subst tr; repeat constructor).
  assert (H3 : Forall (answers processor (track_accuracy t) false lo ac) va)
    by (subst va; repeat constructor).
  assert (H4 : tr <> [])
    by (subst tr; discriminate).
  assert (H5 : va <> [])
    by (subst va; discriminate).
  split_and!; [exact H1 | exact H2 | exact H3 | exact H4 | exact H5 |].
  exact (train_epoch_again_writes_nothing w 0%nat t 0 1 tr va processor
           lo ac lo ac H1 H2 H3 H4 H5).
Defined.

(** No training batch, two validation batches. *)
Lemma train_epoch_empty_training_witness :
  let t := __init__ 0 true default_best_validation_loss in
  let w : @World unit nat :=
    {| class_attrs := TrainingProgress_class;
       objects := {[ 0%nat := t ]};
       files := [];
       the_model := {| training := false; state_dict := tt |};
       calls := [] |} in
  let lo : nat -> Q := fun b => inject_Z (Z.of_nat b) in
  let ac : nat -> Q := fun _ => 1 in
  let processor : @Processor nat := fun b _ => Ok (Pair (lo b) (ac b)) in
  let valid := Some [1%nat; 1%nat] in
  objects w !! 0%nat = Some t
  /\ (let out := train_epoch 0 [] valid processor (Some 0%nat) w in
      fst out = Raise ZeroDivisionError
      /\ calls (snd out) = calls w
      /\ files (snd out) = files w
      /\ training (the_model (snd out)) = true
      /\ exists t' : TrainingProgress,
           objects (snd out) !! 0%nat = Some t'
           /\ best_validation_loss t' = best_validation_loss t).
Proof.
  intros t w lo ac processor valid.
  assert (H1 : objects w !! 0%nat = Some t)
    by (reflexivity).
  split_and!; [exact H1 |].
  exact (train_epoch_empty_training w 0%nat t 0 valid processor H1).
Defined.

(** Training batches 2 and 4, an empty validation iterator. *)
Lemma train_epoch_empty_validation_witness :
  let t := __init__ 0 true default_best_validation_loss in
  let w : @World unit nat :=
    {| class_attrs := TrainingProgress_class;
       objects := {[ 0%nat := t ]};
       files := [];
       the_model := {| training := false; state_dict := tt |};
       calls := [] |} in
  let lo : nat -> Q := fun b => inject_Z (Z.of_nat b) in
  let ac : nat -> Q := fun _ => 1 in
  let processor : @Processor nat := fun b _ => Ok (Pair (lo b) (ac b)) in
  let tr := [2%nat; 4%nat] in
  objects w !! 0%nat = Some t
  /\ Forall (answers processor (track_accuracy t) true lo ac) tr
  /\ tr <> []
  /\ (let out := train_epoch 0 tr (Some []) processor (Some 0%nat) w in
      fst out = Raise ZeroDivisionError
      /\ calls (snd out)
         = calls w ++ map (fun b => (b, keyword (track_accuracy t) true)) tr
      /\ files (snd out) = files w
      /\ training (the_model (snd out)) = false
      /\ exists v : Q,
           observed (snd out) 0%nat average_training_loss = Some v
           /\ v == Qsum (map lo tr) / inject_Z (Z.of_nat (length tr))).
Proof.
  intros t w lo ac processor tr.
  assert (H1 : objects w !! 0%nat = Some t)
    by (reflexivity).
  assert (H2 : Forall (answers processor (track_accuracy t) true lo ac) tr)
    by (subst tr; repeat constructor).
  assert (H4 : tr <> [])
    by (subst tr; discriminate).
  split_and!; [exact H1 | exact H2 | exact H4 |].
  exact (train_epoch_empty_validation w 0%nat t 0 tr processor lo ac H1 H2 H4).
Defined.

(** Training batches 2 and 4, no validation iterator. *)
Lemma train_epoch_without_validation_witness :
  let t := __init__ 0 true default_best_validation_loss in
  let w : @World unit nat :=
    {| class_attrs := TrainingProgress_class;
       objects := {[ 0%nat := t ]};
       files := [];
       the_model := {| training := false; state_dict := tt |};
       calls := [] |} in
  let lo : nat -> Q := fun b => inject_Z (Z.of_nat b) in
  let ac : nat -> Q := fun _ => 1 in
  let processor : @Processor nat := fun b _ => Ok (Pair (lo b) (ac b)) in
  let tr := [2%nat; 4%nat] in
  objects w !! 0%nat = Some t
  /\ Forall (answers processor (track_accuracy t) true lo ac) tr
  /\ tr <> []
  /\ (let out := train_epoch 0 tr None processor (Some 0%nat) w in
      fst out = Ok tt
      /\ calls (snd out)
         = calls w ++ map (fun b => (b, keyword (track_accuracy t) true)) tr
      /\ files (snd out) = files w
      /\ training (the_model (snd out)) = true
      /\ observed (snd out) 0%nat average_validation_loss
         = observed w 0%nat average_validation_loss
      /\ observed (snd out) 0%nat average_validation_acc
         = observed w 0%nat average_validation_acc
      /\ exists t' : TrainingProgress,
           objects (snd out) !! 0%nat = Some t'
           /\ best_validation_loss t' = best_validation_loss t).
Proof.
  intros t w lo ac processor tr.
  assert (H1 : objects w !! 0%nat = Some t)
    by (reflexivity).
  assert (H2 : Forall (answers processor (track_accuracy t) true lo ac) tr)
    by (subst tr; repeat constructor).
  assert (H4 : tr <> [])
    by (subst tr; discriminate).
  split_and!; [exact H1 | exact H2 | exact H4 |].
  exact (train_epoch_without_validation w 0%nat t 0 tr processor lo ac H1 H2 H4).
Defined.

(** The processor raises on batch 3, the third of four training batches. *)
Lemma train_epoch_processor_raises_witness :
  let t := __init__ 0 true default_best_validation_loss in
  let w : @World unit nat :=
    {| class_attrs := TrainingProgress_class;
       objects := {[ 0%nat := t ]};
       files := [];
       the_model := {| training := false; state_dict := tt |};
       calls := [] |} in
  let lo : nat -> Q := fun b => inject_Z (Z.of_nat b) in
  let ac : nat -> Q := fun _ => 1 in
  let processor : @Processor nat :=
    fun b _ => if (b =? 3)%nat then Raise TypeError
               else Ok (Pair (lo b) (ac b)) in
  let pre := [2%nat; 4%nat] in
  let post := [5%nat] in
  objects w !! 0%nat = Some t
  /\ Forall (answers processor (track_accuracy t) true lo ac) pre
  /\ processor 3%nat (keyword (track_accuracy t) true) = Raise TypeError
  /\ (let out := train_epoch 0 (pre ++ 3%nat :: post) (Some [1%nat]) processor
                   (Some 0%nat) w in
      fst out = Raise TypeError
      /\ calls (snd out)
         = calls w ++ map (fun b => (b, keyword (track_accuracy t) true)) pre
                   ++ [(3%nat, keyword (track_accuracy t) true)]
      /\ files (snd out) = files w
      /\ training (the_model (snd out)) = true
      /\ exists v : Q,
           observed (snd out) 0%nat average_training_loss = Some v
           /\ v == Qsum (map lo pre)).
Proof.
  intros t w lo ac processor pre post.
  assert (H1 : objects w !! 0%nat = Some t)
    by (reflexivity).
  assert (H2 : Forall (answers processor (track_accuracy t) true lo ac) pre)
    by (subst pre; repeat constructor).
  assert (H6 : processor 3%nat (keyword (track_accuracy t) true) = Raise TypeError)
    by (reflexivity).
  split_and!; [exact H1 | exact H2 | exact H6 |].
  exact (train_epoch_processor_raises w 0%nat t 0 pre post 3%nat TypeError
           (Some [1%nat]) processor lo ac H1 H2 H6).
Defined.

